(** * alx-files_manager: the file storage and access-control engine

    A shallow embedding of the request handlers of
    [controllers/FilesController.js] and of [UsersController.postNew]
    (shipped inside [controllers/AppController.js]), with the theorems that
    settle the specification's claims about them.

    The handlers are [async] functions that talk to a MongoDB database, a
    Redis session store, the local disk and two Bull queues.  They are
    embedded as computations of a state monad over a [World] that holds those
    stores; an early [return response.status(c).send(b)] becomes the branch
    that yields [Sent] of that response. *)

From Stdlib Require Import ZArith String List Bool Lia.
From stdpp Require Import base option list strings gmap.

Local Open Scope string_scope.
Local Open Scope list_scope.

(** ** Data model *)

(** A MongoDB [ObjectId].  [ObjectId()] applied to [null] or [undefined]
    generates a new identifier, which is the identifier of no stored
    document; applied to a string it is the identifier that string prints.
    The driver raises on a malformed string: the handlers build identifiers
    from the session store's values and from request values, and the model
    takes the constructor as total on them. *)
Inductive ObjectID : Type :=
| NewId
| Oid (hex : string).

Definition ObjectId (id : option string) : ObjectID :=
  match id with
  | None => NewId
  | Some s => Oid s
  end.

(** Equality of a query value with a stored identifier. *)
Definition sameId (o : ObjectID) (stored : string) : bool :=
  match o with
  | NewId => false
  | Oid h => bool_decide (h = stored)
  end.

(** The [parentId] of a payload or of a stored file: the number [0] for the
    root, or an identifier. *)
Inductive ParentId : Type :=
| Root
| Parent (id : string).

#[global] Instance ParentId_eq_dec : EqDecision ParentId.
Proof. solve_decision. Defined.

(** The value of the variable [parentId] when [getIndex] builds its
    pipeline: [0] or an [ObjectId]. *)
Inductive ParentKey : Type :=
| Zero
| Ref (o : ObjectID).

Definition parentMatches (k : ParentKey) (p : ParentId) : bool :=
  match k, p with
  | Zero, Root => true
  | Ref o, Parent s => sameId o s
  | _, _ => false
  end.

(** A document of the [files] collection. *)
Record FileDoc : Type := {
  doc_id : string;
  doc_userId : string;
  doc_name : string;
  doc_type : string;
  doc_isPublic : bool;
  doc_parentId : ParentId;
  doc_localPath : option string
}.

(** The file as it is sent to a client:
    [{ id, userId, name, type, isPublic, parentId }]. *)
Record File : Type := {
  f_id : string;
  f_userId : string;
  f_name : string;
  f_type : string;
  f_isPublic : bool;
  f_parentId : ParentId
}.

(** A document of the [users] collection. *)
Record UserDoc : Type := {
  user_id : string;
  user_email : string;
  user_password : string
}.

(** A job of a Bull queue: [{}], [{ userId }] or [{ fileId, userId }]. *)
Record Job : Type := {
  job_fileId : option string;
  job_userId : option string
}.

(** The result of [Number(x)] on a query parameter: [NaN] when the parameter
    is missing or not numeric, otherwise its value.  The integers are the
    values the model covers. *)
Inductive JsNumber : Type :=
| NaN
| Num (z : Z).

(** [request.body], for uploads and registrations. *)
Record Body : Type := {
  body_name : option string;
  body_type : option string;
  body_parentId : option ParentId;
  body_isPublic : option bool;
  body_data : option string;
  body_email : option string;
  body_password : option string
}.

(** The parts of an Express request the handlers read.  [query_page] holds
    [Number(request.query.page)]. *)
Record Request : Type := {
  header_token : option string;
  params_id : string;
  query_parentId : option string;
  query_page : JsNumber;
  query_size : option string;
  body : Body
}.

(** What [response.status(c).send(v)] sends. *)
Inductive Payload : Type :=
| ErrorObj (error : string)
| Raw (v : string)
| FileObj (f : File)
| FileList (l : list File)
| UserObj (id email : string)
| Content (data : string).

Record Response : Type := {
  status : nat;
  content_type : option string;
  payload : Payload
}.

(** A handler either sends a response or its promise is rejected (an
    exception of the database driver that no handler catches). *)
Inductive Outcome : Type :=
| Sent (r : Response)
| Rejected.

(** The stores behind the handlers. *)
Record World : Type := {
  users : list UserDoc;
  files : list FileDoc;
  sessions : gmap string string;
  disk : gmap string string;
  fileQueue : list Job;
  userQueue : list Job
}.

(** The validated parameters of an upload. *)
Record FileParams : Type := {
  fp_name : string;
  fp_type : string;
  fp_parentId : ParentId;
  fp_isPublic : bool;
  fp_data : option string
}.

(** [{ error, code, newFile }] of [fileUtils.saveFile]. *)
Inductive SaveResult : Type :=
| SaveError (code : nat) (error : string)
| Saved (newFile : File).

(** [{ error, code, data }] of [fileUtils.getFileData]. *)
Inductive DataResult : Type :=
| DataError (code : nat) (error : string)
| Data (data : string).

(** [{ error, code, updatedFile }] of [fileUtils.publishUnpublish]. *)
Inductive PublishResult : Type :=
| PublishError (code : nat) (error : string)
| Updated (code : nat) (updatedFile : File).

(** The collaborators whose code is neither in the controllers nor described
    by the specification: they are parameters of the development.
    [saveFile] and [getFileData] work on the [files] collection and the
    disk; [insertOne] is the driver's insertion into [users], [None] when it
    throws. *)
Record Env : Type := {
  isValidId : option string -> bool;
  saveFile : option string -> FileParams -> string ->
             list FileDoc * gmap string string ->
             SaveResult * (list FileDoc * gmap string string);
  getFileData : FileDoc -> option string -> gmap string string -> DataResult;
  contentType : string -> string;
  sha1 : string -> string;
  insertOne : list UserDoc -> string -> string -> option (string * list UserDoc);
  env_FOLDER_PATH : option string
}.

(** ** JavaScript values *)

(** [!!x] for a value that is a string, [null] or [undefined]. *)
Definition truthy (x : option string) : bool :=
  match x with
  | Some s => negb (bool_decide (s = ""))
  | None => false
  end.

(** [x || d] on such values. *)
Definition or_default (x : option string) (d : string) : string :=
  match x with
  | Some s => if bool_decide (s = "") then d else s
  | None => d
  end.

(** [x === 'lit'] for a field that may be missing. *)
Definition is_str (x : option string) (lit : string) : bool :=
  bool_decide (x = Some lit).

(** ** The handler monad *)

Definition M (A : Type) : Type := World -> A * World.

Definition ret {A} (a : A) : M A := fun w => (a, w).

Definition bind {A B} (c : M A) (k : A -> M B) : M B :=
  fun w => let (a, w') := c w in k a w'.

Definition gets {A} (f : World -> A) : M A := fun w => (f w, w).

Definition modify (f : World -> World) : M unit := fun w => (tt, f w).

Declare Scope handler_scope.
Delimit Scope handler_scope with handler.
Notation "x <- c ;; k" := (bind c (fun x => k))
  (at level 100, c at next level, right associativity) : handler_scope.
Notation "c ;;; k" := (bind c (fun _ => k))
  (at level 100, right associativity) : handler_scope.
Local Open Scope handler_scope.

(** [response.status(code).send(v)] *)
Definition send (code : nat) (v : Payload) : M Outcome :=
  ret (Sent {| status := code; content_type := None; payload := v |}).

Definition when (b : bool) (c : M unit) : M unit :=
  if b then c else ret tt.

(** [fileQueue.add(job)] and [userQueue.add(job)] *)
Definition fileQueue_add (j : Job) : M unit :=
  modify (fun w =>
    {| users := users w; files := files w; sessions := sessions w;
       disk := disk w; fileQueue := fileQueue w ++ [j];
       userQueue := userQueue w |}).

Definition userQueue_add (j : Job) : M unit :=
  modify (fun w =>
    {| users := users w; files := files w; sessions := sessions w;
       disk := disk w; fileQueue := fileQueue w;
       userQueue := userQueue w ++ [j] |}).

(** ** utils/user *)

Module userUtils.

(** Modelled from the spec: [utils/user.js] is not part of the sources.
    [getUserIdAndKey] is the specification's [authenticate] up to the
    Session Store: the token of the request is looked up in the store,
    which holds the sessions that have not expired; a missing token or a
    token without a session gives no user id. *)
Definition getUserIdAndKey (request : Request) : M (option string) :=
  gets (fun w => header_token request ≫= (fun t => sessions w !! t)).

(** Modelled from the spec: [getUser] is the Identity Store's lookup by
    filter, here always by [_id]. *)
Definition getUser (_id : ObjectID) : M (option UserDoc) :=
  gets (fun w => find (fun u => sameId _id (user_id u)) (users w)).

End userUtils.

(** ** utils/file *)

Module fileUtils.

(** A filter [{ _id }] or [{ _id, userId }]. *)
Record Filter : Type := {
  flt_id : ObjectID;
  flt_userId : option ObjectID
}.

Definition matches (q : Filter) (d : FileDoc) : bool :=
  sameId (flt_id q) (doc_id d) &&
  match flt_userId q with
  | None => true
  | Some u => sameId u (doc_userId d)
  end.

Definition findOne (q : Filter) (fs : list FileDoc) : option FileDoc :=
  find (matches q) fs.

(** Modelled from the spec: [utils/file.js] is not part of the sources.
    [getFile] is the File Metadata Store's [get(filter)]: the stored file
    that matches the filter, or nothing. *)
Definition getFile (q : Filter) : M (option FileDoc) :=
  gets (fun w => findOne q (files w)).

(** Modelled from the spec: [isOwnerAndPublic] is the Access Control
    Layer's [authorizeRead(file, requesterId)]: true iff the file is
    public or its owner is the requester. *)
Definition isOwnerAndPublic (file : FileDoc) (userId : option string) : bool :=
  doc_isPublic file || bool_decide (userId = Some (doc_userId file)).

(** Modelled from the spec: [processFile] produces the file metadata
    output [{ id, userId, name, type, isPublic, parentId }], without
    [localPath]. *)
Definition processFile (doc : FileDoc) : File :=
  {| f_id := doc_id doc; f_userId := doc_userId doc; f_name := doc_name doc;
     f_type := doc_type doc; f_isPublic := doc_isPublic doc;
     f_parentId := doc_parentId doc |}.

Definition allowedType (t : string) : bool :=
  bool_decide (t = "folder") || bool_decide (t = "file") ||
  bool_decide (t = "image").

Definition carriesContent (t : string) : bool :=
  bool_decide (t = "file") || bool_decide (t = "image").

(** A [parentId] resolves when it is the id of a stored file of type
    folder. *)
Definition resolvesToFolder (fs : list FileDoc) (p : string) : bool :=
  match findOne {| flt_id := ObjectId (Some p); flt_userId := None |} fs with
  | Some folder => bool_decide (doc_type folder = "folder")
  | None => false
  end.

(** Modelled from the spec: [validateBody] is the Validation Layer.  It
    gives either the normalized parameters ([parentId] defaulted to [0],
    [isPublic] to [false]) or the error of the first rule that fails:
    1. [name] missing or empty: "Missing name";
    2. [type] missing or not one of folder, file, image: "Missing type";
    3. [type] file or image and [data] absent: "Missing data";
    4. [parentId] non-zero and not resolving to an existing file of type
       folder: "Parent not found".
    It has no side effect. *)
Definition validate (b : Body) (fs : list FileDoc) : string + FileParams :=
  match body_name b with
  | None => inl "Missing name"
  | Some name =>
    if bool_decide (name = "") then inl "Missing name" else
    match body_type b with
    | None => inl "Missing type"
    | Some type =>
      if negb (allowedType type) then inl "Missing type" else
      if carriesContent type && bool_decide (body_data b = None)
      then inl "Missing data" else
      let parentId := default Root (body_parentId b) in
      let fileParams :=
        {| fp_name := name; fp_type := type; fp_parentId := parentId;
           fp_isPublic := default false (body_isPublic b);
           fp_data := body_data b |} in
      match parentId with
      | Root => inr fileParams
      | Parent p =>
        if resolvesToFolder fs p then inr fileParams
        else inl "Parent not found"
      end
    end
  end.

Definition validateBody (request : Request) : M (string + FileParams) :=
  gets (fun w => validate (body request) (files w)).

(** A stage of an aggregation pipeline. *)
Inductive Stage : Type :=
| Match (parentId : ParentKey)
| Skip (n : JsNumber)
| Limit (n : JsNumber).

(** MongoDB's stages: [$match] keeps the documents whose [parentId] is the
    given value, in the collection's order; [$skip] wants a non-negative
    number and [$limit] a positive one, and the driver raises otherwise. *)
Definition runStage (st : Stage) (docs : list FileDoc) : option (list FileDoc) :=
  match st with
  | Match k => Some (List.filter (fun d => parentMatches k (doc_parentId d)) docs)
  | Skip (Num n) => if (n <? 0)%Z then None else Some (drop (Z.to_nat n) docs)
  | Limit (Num n) => if (n <=? 0)%Z then None else Some (take (Z.to_nat n) docs)
  | Skip NaN | Limit NaN => None
  end.

Fixpoint aggregate (pipeline : list Stage) (docs : list FileDoc)
  : option (list FileDoc) :=
  match pipeline with
  | [] => Some docs
  | st :: rest =>
    match runStage st docs with
    | Some docs' => aggregate rest docs'
    | None => None
    end
  end.

(** Modelled from the spec: [getFilesOfParentId] is the Listing Engine's
    read of the File Metadata Store: it runs the pipeline on the [files]
    collection and never mutates.  [None] is a cursor that raises. *)
Definition getFilesOfParentId (pipeline : list Stage) : M (option (list FileDoc)) :=
  gets (fun w => aggregate pipeline (files w)).

Definition setVisibility (id : string) (isPublic : bool) (d : FileDoc) : FileDoc :=
  if bool_decide (doc_id d = id)
  then {| doc_id := doc_id d; doc_userId := doc_userId d;
          doc_name := doc_name d; doc_type := doc_type d;
          doc_isPublic := isPublic; doc_parentId := doc_parentId d;
          doc_localPath := doc_localPath d |}
  else d.

Definition updateFile (id : string) (isPublic : bool) : M unit :=
  modify (fun w =>
    {| users := users w; files := map (setVisibility id isPublic) (files w);
       sessions := sessions w; disk := disk w; fileQueue := fileQueue w;
       userQueue := userQueue w |}).

(** Modelled from the spec: [publishUnpublish] authenticates the token
    (a missing session or a session of a user that no longer exists is
    Unauthorized), then is the File Metadata Store's
    [updateVisibility(id, owner, isPublic)]: the file is looked up by
    [{ id, userId }], a miss is not-found, a hit has its [isPublic] set and
    is returned.  By the rule of the Post-Processing Dispatcher, a thumbnail
    job [{ fileId, userId }] is triggered when a successfully updated file
    has type image: it is added to the file queue. *)
Definition publishUnpublish (request : Request) (setPublish : bool)
  : M PublishResult :=
  userId <- userUtils.getUserIdAndKey request ;;
  user <- userUtils.getUser (ObjectId userId) ;;
  match user with
  | None => ret (PublishError 401 "Unauthorized")
  | Some _ =>
    file <- getFile {| flt_id := ObjectId (Some (params_id request));
                       flt_userId := Some (ObjectId userId) |} ;;
    match file with
    | None => ret (PublishError 404 "Not found")
    | Some f =>
      updateFile (doc_id f) setPublish ;;;
      let updatedFile := processFile (setVisibility (doc_id f) setPublish f) in
      when (bool_decide (f_type updatedFile = "image"))
           (fileQueue_add {| job_fileId := Some (f_id updatedFile);
                             job_userId := Some (f_userId updatedFile) |}) ;;;
      ret (Updated 200 updatedFile)
    end
  end.

End fileUtils.

(** ** JavaScript numbers of [getIndex] *)

(** [n || 0]: [NaN] and [0] are falsy. *)
Definition or_zero (n : JsNumber) : JsNumber :=
  match n with
  | NaN => Num 0
  | Num z => if (z =? 0)%Z then Num 0 else Num z
  end.

Definition isNaN (n : JsNumber) : bool :=
  match n with
  | NaN => true
  | Num _ => false
  end.

Definition js_mul (a b : JsNumber) : JsNumber :=
  match a, b with
  | Num x, Num y => Num (x * y)
  | _, _ => NaN
  end.

(** ** controllers/FilesController.js *)

Module FilesController.
Section Handlers.

Variable E : Env.

(** [process.env.FOLDER_PATH || '/tmp/files_manager'] *)
Definition FOLDER_PATH : string :=
  or_default (env_FOLDER_PATH E) "/tmp/files_manager".

(** The call of [fileUtils.saveFile], which works on the [files]
    collection and the disk. *)
Definition saveFile_call (userId : option string) (fileParams : FileParams)
    (folder : string) : M SaveResult :=
  fun w =>
    let '(r, (fs, d)) := saveFile E userId fileParams folder (files w, disk w) in
    (r, {| users := users w; files := fs; sessions := sessions w;
           disk := d; fileQueue := fileQueue w; userQueue := userQueue w |}).

Definition postUpload (request : Request) : M Outcome :=
  userId <- userUtils.getUserIdAndKey request ;;
  if negb (isValidId E userId) then send 401 (ErrorObj "Unauthorized") else
  when (negb (truthy userId) && is_str (body_type (body request)) "image")
       (fileQueue_add {| job_fileId := None; job_userId := None |}) ;;;
  user <- userUtils.getUser (ObjectId userId) ;;
  match user with
  | None => send 401 (ErrorObj "Unauthorized")
  | Some _ =>
    validation <- fileUtils.validateBody request ;;
    match validation with
    | inl validationError => send 400 (ErrorObj validationError)
    | inr fileParams =>
      if match fp_parentId fileParams with
         | Root => false
         | Parent p => negb (isValidId E (Some p))
         end
      then send 400 (ErrorObj "Parent not found") else
      saved <- saveFile_call userId fileParams FOLDER_PATH ;;
      match saved with
      | SaveError code error =>
        when (is_str (body_type (body request)) "image")
             (fileQueue_add {| job_fileId := None; job_userId := userId |}) ;;;
        send code (Raw error)
      | Saved newFile =>
        when (bool_decide (fp_type fileParams = "image"))
             (fileQueue_add {| job_fileId := Some (f_id newFile);
                               job_userId := Some (f_userId newFile) |}) ;;;
        send 201 (FileObj newFile)
      end
    end
  end.

Definition getShow (request : Request) : M Outcome :=
  let fileId := params_id request in
  userId <- userUtils.getUserIdAndKey request ;;
  user <- userUtils.getUser (ObjectId userId) ;;
  match user with
  | None => send 401 (ErrorObj "Unauthorized")
  | Some _ =>
    if negb (isValidId E (Some fileId)) || negb (isValidId E userId)
    then send 404 (ErrorObj "Not found") else
    result <- fileUtils.getFile
                {| fileUtils.flt_id := ObjectId (Some fileId);
                   fileUtils.flt_userId := Some (ObjectId userId) |} ;;
    match result with
    | None => send 404 (ErrorObj "Not found")
    | Some doc => send 200 (FileObj (fileUtils.processFile doc))
    end
  end.

(** [let page = Number(request.query.page) || 0;
     if (Number.isNaN(page)) page = 0;] *)
Definition normalizePage (n : JsNumber) : JsNumber :=
  let page := or_zero n in
  if isNaN page then Num 0 else page.

(** The pipeline, the cursor's [forEach] with its [push], and the answer. *)
Definition listPage (parentId : ParentKey) (page : JsNumber) : M Outcome :=
  let pipeline :=
    [ fileUtils.Match parentId;
      fileUtils.Skip (js_mul page (Num 20));
      fileUtils.Limit (Num 20) ] in
  fileCursor <- fileUtils.getFilesOfParentId pipeline ;;
  match fileCursor with
  | None => ret Rejected
  | Some docs =>
    let fileList :=
      fold_left (fun fileList doc => fileList ++ [fileUtils.processFile doc])
                docs [] in
    send 200 (FileList fileList)
  end.

Definition getIndex (request : Request) : M Outcome :=
  userId <- userUtils.getUserIdAndKey request ;;
  user <- userUtils.getUser (ObjectId userId) ;;
  match user with
  | None => send 401 (ErrorObj "Unauthorized")
  | Some _ =>
    let parentId := or_default (query_parentId request) "0" in
    let parentId := if bool_decide (parentId = "0") then Root else Parent parentId in
    let page := normalizePage (query_page request) in
    match parentId with
    | Root => listPage Zero page
    | Parent p =>
      if negb (isValidId E (Some p)) then send 401 (ErrorObj "Unauthorized") else
      let parentId := ObjectId (Some p) in
      folder <- fileUtils.getFile {| fileUtils.flt_id := parentId;
                                     fileUtils.flt_userId := None |} ;;
      match folder with
      | None => send 200 (FileList [])
      | Some f =>
        if negb (bool_decide (doc_type f = "folder"))
        then send 200 (FileList [])
        else listPage (Ref parentId) page
      end
    end
  end.

(** [const { error, code, updatedFile } = ...;
     if (error) return response.status(code).send({ error });
     return response.status(code).send(updatedFile);] *)
Definition sendPublishResult (r : PublishResult) : M Outcome :=
  match r with
  | PublishError code error => send code (ErrorObj error)
  | Updated code updatedFile => send code (FileObj updatedFile)
  end.

Definition putPublish (request : Request) : M Outcome :=
  r <- fileUtils.publishUnpublish request true ;;
  sendPublishResult r.

Definition putUnpublish (request : Request) : M Outcome :=
  r <- fileUtils.publishUnpublish request false ;;
  sendPublishResult r.

Definition getFile (request : Request) : M Outcome :=
  userId <- userUtils.getUserIdAndKey request ;;
  let fileId := params_id request in
  let size := if truthy (query_size request) then query_size request else None in
  if negb (isValidId E (Some fileId)) then send 404 (ErrorObj "Not found") else
  file <- fileUtils.getFile {| fileUtils.flt_id := ObjectId (Some fileId);
                               fileUtils.flt_userId := None |} ;;
  match file with
  | None => send 404 (ErrorObj "Not found")
  | Some file =>
    if negb (fileUtils.isOwnerAndPublic file userId)
    then send 404 (ErrorObj "Not found") else
    if bool_decide (doc_type file = "folder")
    then send 400 (ErrorObj "A folder doesn't have content") else
    d <- gets disk ;;
    match getFileData E file size d with
    | DataError code error => send code (ErrorObj error)
    | Data data =>
      let mimeType := contentType E (doc_name file) in
      ret (Sent {| status := 200; content_type := Some mimeType;
                   payload := Content data |})
    end
  end.

End Handlers.
End FilesController.

(** ** controllers/UsersController.js *)

Module UsersController.
Section Handlers.

Variable E : Env.

(** [dbClient.usersCollection.findOne({ email })] *)
Definition findOne_email (email : string) : M (option UserDoc) :=
  gets (fun w => find (fun u => bool_decide (user_email u = email)) (users w)).

(** [dbClient.usersCollection.insertOne({ email, password })] inside its
    [try]: the inserted id, or [None] when the driver throws. *)
Definition insertOne_call (email password : string) : M (option string) :=
  fun w =>
    match insertOne E (users w) email password with
    | Some (insertedId, us) =>
      (Some insertedId,
       {| users := us; files := files w; sessions := sessions w;
          disk := disk w; fileQueue := fileQueue w; userQueue := userQueue w |})
    | None => (None, w)
    end.

Definition postNew (request : Request) : M Outcome :=
  let email := body_email (body request) in
  let password := body_password (body request) in
  if negb (truthy email) then send 400 (ErrorObj "Missing email") else
  if negb (truthy password) then send 400 (ErrorObj "Missing password") else
  let email := default "" email in
  let password := default "" password in
  emailExists <- findOne_email email ;;
  match emailExists with
  | Some _ => send 400 (ErrorObj "Already exist")
  | None =>
    let sha1Password := sha1 E password in
    result <- insertOne_call email sha1Password ;;
    match result with
    | None =>
      userQueue_add {| job_fileId := None; job_userId := None |} ;;;
      send 500 (ErrorObj "Error creating user.")
    | Some insertedId =>
      let user := UserObj insertedId email in
      userQueue_add {| job_fileId := None; job_userId := Some insertedId |} ;;;
      send 201 user
    end
  end.

(** [processedUser] is the user document with [_id] renamed to [id] and
    without [password]: what is left is the id and the email. *)
Definition getMe (request : Request) : M Outcome :=
  userId <- userUtils.getUserIdAndKey request ;;
  user <- userUtils.getUser (ObjectId userId) ;;
  match user with
  | None => send 401 (ErrorObj "Unauthorized")
  | Some user => send 200 (UserObj (user_id user) (user_email user))
  end.

End Handlers.
End UsersController.

(** ** routes/index.js *)

Module routes.

(** The methods the router registers routes for; [OTHER] is any method it
    registers none for.  (Express serves a HEAD request through the GET
    routes: it is taken as [GET].) *)
Inductive Method : Type :=
| GET
| POST
| PUT
| OTHER.

#[global] Instance Method_eq_dec : EqDecision Method.
Proof. solve_decision. Defined.

(** A segment of a route path: a literal, or a parameter [:name]. *)
Inductive Segment : Type :=
| Lit (s : string)
| Param (name : string).

(** The handlers the routes name. *)
Inductive Endpoint : Type :=
| AppController_getStatus
| AppController_getStats
| UsersController_postNew
| UsersController_getMe
| AuthController_getConnect
| AuthController_getDisconnect
| FilesController_postUpload
| FilesController_getShow
| FilesController_getIndex
| FilesController_putPublish
| FilesController_putUnpublish
| FilesController_getFile.

Record Route : Type := {
  route_method : Method;
  route_path : list Segment;
  route_endpoint : Endpoint
}.

(** The routes of [controllerRouting], in the order of their
    registration. *)
Definition controllerRouting : list Route :=
  [ {| route_method := GET; route_path := [Lit "status"];
       route_endpoint := AppController_getStatus |};
    {| route_method := GET; route_path := [Lit "stats"];
       route_endpoint := AppController_getStats |};
    {| route_method := POST; route_path := [Lit "users"];
       route_endpoint := UsersController_postNew |};
    {| route_method := GET; route_path := [Lit "users"; Lit "me"];
       route_endpoint := UsersController_getMe |};
    {| route_method := GET; route_path := [Lit "connect"];
       route_endpoint := AuthController_getConnect |};
    {| route_method := GET; route_path := [Lit "disconnect"];
       route_endpoint := AuthController_getDisconnect |};
    {| route_method := POST; route_path := [Lit "files"];
       route_endpoint := FilesController_postUpload |};
    {| route_method := GET; route_path := [Lit "files"; Param "id"];
       route_endpoint := FilesController_getShow |};
    {| route_method := GET; route_path := [Lit "files"];
       route_endpoint := FilesController_getIndex |};
    {| route_method := PUT; route_path := [Lit "files"; Param "id"; Lit "publish"];
       route_endpoint := FilesController_putPublish |};
    {| route_method := PUT; route_path := [Lit "files"; Param "id"; Lit "unpublish"];
       route_endpoint := FilesController_putUnpublish |};
    {| route_method := GET; route_path := [Lit "files"; Param "id"; Lit "data"];
       route_endpoint := FilesController_getFile |} ].

Definition lower (a : Ascii.ascii) : Ascii.ascii :=
  let n := Ascii.nat_of_ascii a in
  if (65 <=? n)%nat && (n <=? 90)%nat then Ascii.ascii_of_nat (n + 32) else a.

Fixpoint lowercase (s : string) : string :=
  match s with
  | EmptyString => EmptyString
  | String a rest => String (lower a) (lowercase rest)
  end.

(** Express matches a request path, given here by the segments between its
    slashes as the client sent them, against a route path with its default
    options: literals are compared without case, a parameter takes one
    non-empty segment, the whole path must be consumed and one trailing
    slash is allowed.  The result is the segments the parameters capture,
    not yet decoded. *)
Fixpoint matchPath (pattern : list Segment) (path : list string)
  : option (list (string * string)) :=
  match pattern, path with
  | [], [] => Some []
  | [], [last] => if String.eqb last "" then Some [] else None
  | Lit s :: pattern', seg :: path' =>
    if String.eqb (lowercase s) (lowercase seg) then matchPath pattern' path'
    else None
  | Param name :: pattern', seg :: path' =>
    if String.eqb seg "" then None else
    match matchPath pattern' path' with
    | Some params => Some ((name, seg) :: params)
    | None => None
    end
  | _, _ => None
  end.

Definition matchRoute (r : Route) (m : Method) (path : list string)
  : option (list (string * string)) :=
  if bool_decide (route_method r = m) then matchPath (route_path r) path
  else None.

(** What the router does with a request: no route, the answer 400 of a
    parameter that cannot be decoded, or a handler with [request.params]. *)
Inductive Dispatch : Type :=
| NoRoute
| BadRequest
| Handled (e : Endpoint) (params : list (string * string)).

(** Express decodes every captured segment with [decodeURIComponent], here
    [decode], which gives [None] when it raises on a malformed escape. *)
Fixpoint decodeParams (decode : string -> option string)
    (captures : list (string * string)) : option (list (string * string)) :=
  match captures with
  | [] => Some []
  | (name, seg) :: rest =>
    match decode seg, decodeParams decode rest with
    | Some v, Some params => Some ((name, v) :: params)
    | _, _ => None
    end
  end.

(** The router goes through the routes in order.  A route whose path
    matches has its parameters decoded, before its method is looked at: a
    parameter that cannot be decoded ends the search with the answer 400;
    otherwise the route takes the request when the method is its own, and
    the search goes on when it is not.  No handler of the table passes the
    request on. *)
Fixpoint firstMatch (decode : string -> option string) (table : list Route)
    (m : Method) (path : list string) : Dispatch :=
  match table with
  | [] => NoRoute
  | r :: rest =>
    match matchPath (route_path r) path with
    | None => firstMatch decode rest m path
    | Some captures =>
      match decodeParams decode captures with
      | None => BadRequest
      | Some params =>
        if bool_decide (route_method r = m)
        then Handled (route_endpoint r) params
        else firstMatch decode rest m path
      end
    end
  end.

Definition dispatch (decode : string -> option string) (m : Method)
    (path : list string) : Dispatch :=
  firstMatch decode controllerRouting m path.

End routes.

(** ** A concrete environment and store

    The handlers run on them in the examples below. *)

Module Sample.

Definition isHex (a : Ascii.ascii) : bool :=
  let n := Ascii.nat_of_ascii a in
  ((48 <=? n)%nat && (n <=? 57)%nat) || ((97 <=? n)%nat && (n <=? 102)%nat).

(** An id checker in the way of the driver: nothing to check on [null],
    and a string must be 24 hexadecimal characters. *)
Definition hex24 (id : option string) : bool :=
  match id with
  | None => true
  | Some s =>
    bool_decide (String.length s = 24) && forallb isHex (list_ascii_of_string s)
  end.

Definition newId (n : nat) : string :=
  "00000000000000000000000" +:+
  String (Ascii.ascii_of_nat (48 + n mod 10)%nat) "".

(** A [saveFile] that writes the data of a file or image under the folder
    and then appends the document. *)
Definition save (userId : option string) (p : FileParams) (folder : string)
    (st : list FileDoc * gmap string string)
  : SaveResult * (list FileDoc * gmap string string) :=
  let '(fs, d) := st in
  let id := newId (length fs) in
  let path := folder +:+ "/" +:+ id in
  let isFolder := bool_decide (fp_type p = "folder") in
  let doc :=
    {| doc_id := id; doc_userId := default "" userId; doc_name := fp_name p;
       doc_type := fp_type p; doc_isPublic := fp_isPublic p;
       doc_parentId := fp_parentId p;
       doc_localPath := if isFolder then None else Some path |} in
  (Saved (fileUtils.processFile doc),
   (fs ++ [doc],
    if isFolder then d else <[path := default "" (fp_data p)]> d)).

(** A [saveFile] on a disk that cannot be written. *)
Definition saveFails (userId : option string) (p : FileParams) (folder : string)
    (st : list FileDoc * gmap string string)
  : SaveResult * (list FileDoc * gmap string string) :=
  (SaveError 400 "Cannot write the file", st).

Definition read (f : FileDoc) (size : option string) (d : gmap string string)
  : DataResult :=
  match doc_localPath f with
  | None => DataError 404 "Not found"
  | Some path =>
    let path := match size with
                | Some s => path +:+ "_" +:+ s
                | None => path
                end in
    match d !! path with
    | Some data => Data data
    | None => DataError 404 "Not found"
    end
  end.

Definition insert (us : list UserDoc) (email password : string)
  : option (string * list UserDoc) :=
  let id := newId (length us) in
  Some (id, us ++ [{| user_id := id; user_email := email;
                      user_password := password |}]).

Definition env : Env :=
  {| isValidId := hex24;
     saveFile := save;
     getFileData := read;
     contentType := fun _ => "text/plain; charset=utf-8";
     sha1 := fun s => "sha1:" +:+ s;
     insertOne := insert;
     env_FOLDER_PATH := None |}.

Definition envFullDisk : Env :=
  {| isValidId := hex24;
     saveFile := saveFails;
     getFileData := read;
     contentType := fun _ => "text/plain; charset=utf-8";
     sha1 := fun s => "sha1:" +:+ s;
     insertOne := insert;
     env_FOLDER_PATH := None |}.

Definition alice : string := "5f1e7d35c7ba06511e683b21".
Definition bob : string := "5f1e7d35c7ba06511e683b22".
Definition docsId : string := "5f1e8896c7ba06511e683b25".
Definition notesId : string := "5f1e881cc7ba06511e683b23".
Definition photoId : string := "5f1e879ec7ba06511e683b24".
Definition missingId : string := "5f1e879ec7ba06511e683b99".

(** Alice owns a public folder, a private text file in it and a private
    image at the root. *)
Definition docs : FileDoc :=
  {| doc_id := docsId; doc_userId := alice; doc_name := "docs";
     doc_type := "folder"; doc_isPublic := true; doc_parentId := Root;
     doc_localPath := None |}.

Definition notes : FileDoc :=
  {| doc_id := notesId; doc_userId := alice; doc_name := "notes.txt";
     doc_type := "file"; doc_isPublic := false; doc_parentId := Parent docsId;
     doc_localPath := Some "/tmp/files_manager/n1" |}.

Definition photo : FileDoc :=
  {| doc_id := photoId; doc_userId := alice; doc_name := "photo.png";
     doc_type := "image"; doc_isPublic := false; doc_parentId := Root;
     doc_localPath := Some "/tmp/files_manager/p1" |}.

Definition world : World :=
  {| users := [ {| user_id := alice; user_email := "alice@b.com";
                   user_password := "sha1:pw" |};
                {| user_id := bob; user_email := "bob@b.com";
                   user_password := "sha1:pw" |} ];
     files := [docs; notes; photo];
     sessions := {[ "tok-alice" := alice; "tok-bob" := bob ]};
     disk := {[ "/tmp/files_manager/n1" := "hello";
                "/tmp/files_manager/p1" := "PNG" ]};
     fileQueue := [];
     userQueue := [] |}.

Definition noBody : Body :=
  {| body_name := None; body_type := None; body_parentId := None;
     body_isPublic := None; body_data := None; body_email := None;
     body_password := None |}.

(** A request for a file id, with or without a token. *)
Definition forFile (token : option string) (id : string) : Request :=
  {| header_token := token; params_id := id; query_parentId := None;
     query_page := NaN; query_size := None; body := noBody |}.

(** A listing request. *)
Definition forList (token : option string) (parentId : option string)
    (page : JsNumber) : Request :=
  {| header_token := token; params_id := ""; query_parentId := parentId;
     query_page := page; query_size := None; body := noBody |}.

(** An upload. *)
Definition upload (token : option string) (name type : option string)
    (parentId : option ParentId) (data : option string) : Request :=
  {| header_token := token; params_id := ""; query_parentId := None;
     query_page := NaN; query_size := None;
     body := {| body_name := name; body_type := type;
                body_parentId := parentId; body_isPublic := None;
                body_data := data; body_email := None;
                body_password := None |} |}.

(** A registration. *)
Definition register (email password : option string) : Request :=
  {| header_token := None; params_id := ""; query_parentId := None;
     query_page := NaN; query_size := None;
     body := {| body_name := None; body_type := None;
                body_parentId := None; body_isPublic := None;
                body_data := None; body_email := email;
                body_password := password |} |}.

End Sample.

(** ** Vocabulary of the statements *)

(** The user id the token of a request resolves to, if any. *)
Definition requester (request : Request) (w : World) : option string :=
  fst (userUtils.getUserIdAndKey request w).

(** The requester is a user of the Identity Store. *)
Definition authenticated (request : Request) (w : World) : bool :=
  match fst (userUtils.getUser (ObjectId (requester request w)) w) with
  | Some _ => true
  | None => false
  end.

(** The stored file with a given id. *)
Definition stored (fileId : string) (w : World) : option FileDoc :=
  fileUtils.findOne {| fileUtils.flt_id := ObjectId (Some fileId);
                       fileUtils.flt_userId := None |} (files w).

(** The identifiers of the [files] collection are unique. *)
Definition uniqueIds (w : World) : Prop := NoDup (map doc_id (files w)).

Definition error (code : nat) (msg : string) : Outcome :=
  Sent {| status := code; content_type := None; payload := ErrorObj msg |}.

Definition notFound : Outcome := error 404 "Not found".

Definition returnsContent (o : Outcome) : bool :=
  match o with
  | Sent {| payload := Content _ |} => true
  | _ => false
  end.

(** The answer of [getFile] once the bytes have been looked for. *)
Definition contentAnswer (E : Env) (file : FileDoc) (r : DataResult) : Outcome :=
  match r with
  | DataError code msg => error code msg
  | Data data =>
    Sent {| status := 200; content_type := Some (contentType E (doc_name file));
            payload := Content data |}
  end.

(** The size variant a request selects: [request.query.size || 0]. *)
Definition sizeOf (request : Request) : option string :=
  if truthy (query_size request) then query_size request else None.

(** The same request for another file id. *)
Definition withId (request : Request) (id : string) : Request :=
  {| header_token := header_token request; params_id := id;
     query_parentId := query_parentId request; query_page := query_page request;
     query_size := query_size request; body := body request |}.

(** The children of a parent, in the collection's order, and one page of
    them. *)
Definition children (k : ParentKey) (fs : list FileDoc) : list FileDoc :=
  List.filter (fun d => parentMatches k (doc_parentId d)) fs.

Definition pageOf (n : Z) (docs : list FileDoc) : list FileDoc :=
  take 20 (drop (Z.to_nat (n * 20)) docs).

(** The parent a listing request names: the root, or the string of a
    non-zero [parentId]. *)
Definition listedParent (request : Request) : ParentId :=
  let parentId := or_default (query_parentId request) "0" in
  if bool_decide (parentId = "0") then Root else Parent parentId.

(** The answer of a listing over a collection: the pipeline of [getIndex]
    run on it. *)
Definition listing (k : ParentKey) (page : JsNumber) (fs : list FileDoc) : Outcome :=
  match fileUtils.aggregate
          [ fileUtils.Match k; fileUtils.Skip (js_mul page (Num 20));
            fileUtils.Limit (Num 20) ] fs with
  | None => Rejected
  | Some docs =>
    Sent {| status := 200; content_type := None;
            payload := FileList (map fileUtils.processFile docs) |}
  end.

(** The parent whose children a listing request reaches: the root, or the
    folder that a well-formed non-zero [parentId] resolves to. *)
Definition listedFolder (E : Env) (request : Request) (w : World) : option ParentKey :=
  match listedParent request with
  | Root => Some Zero
  | Parent p =>
    if isValidId E (Some p) && fileUtils.resolvesToFolder (files w) p
    then Some (Ref (ObjectId (Some p)))
    else None
  end.

Definition emptyList : Outcome :=
  Sent {| status := 200; content_type := None; payload := FileList [] |}.

(** The thumbnail job of a file. *)
Definition thumbnailJob (f : File) : Job :=
  {| job_fileId := Some (f_id f); job_userId := Some (f_userId f) |}.

(** [{ userId }] *)
Definition userJob (userId : string) : Job :=
  {| job_fileId := None; job_userId := Some userId |}.

(** The requester of an upload passes the checks on the user: the token
    resolves to a non-empty id that the id check accepts, and that is the
    id of a user of the Identity Store. *)
Definition mayUpload (E : Env) (request : Request) (w : World) : bool :=
  isValidId E (requester request w) && truthy (requester request w) &&
  authenticated request w.

(** The payload of an upload passes the rules on [name], [type] and
    [data]. *)
Definition payloadOk (b : Body) : bool :=
  truthy (body_name b) &&
  match body_type b with
  | Some t =>
    fileUtils.allowedType t &&
    (negb (fileUtils.carriesContent t) || negb (bool_decide (body_data b = None)))
  | None => false
  end.

(** The check of [postUpload] on the [parentId] of the parameters. *)
Definition parentIdAccepted (E : Env) (fileParams : FileParams) : bool :=
  match fp_parentId fileParams with
  | Root => true
  | Parent p => isValidId E (Some p)
  end.

(** The world after [fileQueue.add(j)] when [b] holds. *)
Definition enqueuedIf (b : bool) (j : Job) (w : World) : World :=
  if b then snd (fileQueue_add j w) else w.

(** The same request under another token, and for another parent. *)
Definition withToken (request : Request) (token : option string) : Request :=
  {| header_token := token; params_id := params_id request;
     query_parentId := query_parentId request; query_page := query_page request;
     query_size := query_size request; body := body request |}.

Definition withParentId (request : Request) (parentId : option string) : Request :=
  {| header_token := header_token request; params_id := params_id request;
     query_parentId := parentId; query_page := query_page request;
     query_size := query_size request; body := body request |}.

Definition withPage (request : Request) (page : JsNumber) : Request :=
  {| header_token := header_token request; params_id := params_id request;
     query_parentId := query_parentId request; query_page := page;
     query_size := query_size request; body := body request |}.

(** The identifiers of the [users] collection are unique. *)
Definition uniqueUserIds (w : World) : Prop := NoDup (map user_id (users w)).

(** [{}] *)
Definition emptyJob : Job := {| job_fileId := None; job_userId := None |}.

(** The files of an answer that lists files. *)
Definition listedFiles (o : Outcome) : option (list File) :=
  match o with
  | Sent {| status := 200; payload := FileList l |} => Some l
  | _ => None
  end.

(** The sample environment with a database that refuses insertions. *)
Definition envNoInsert : Env :=
  {| isValidId := isValidId Sample.env;
     saveFile := saveFile Sample.env;
     getFileData := getFileData Sample.env;
     contentType := contentType Sample.env;
     sha1 := sha1 Sample.env;
     insertOne := fun _ _ _ => None;
     env_FOLDER_PATH := None |}.

(** The same world with other bytes on the disk. *)
Definition withDisk (w : World) (d : gmap string string) : World :=
  {| users := users w; files := files w; sessions := sessions w; disk := d;
     fileQueue := fileQueue w; userQueue := userQueue w |}.

(** A decoder for the examples: a segment without an escape is left as it
    is, as [decodeURIComponent] leaves it; the examples have no other. *)
Definition decodePlain (seg : string) : option string :=
  if existsb (Ascii.eqb (Ascii.ascii_of_nat 37)) (list_ascii_of_string seg) then None
  else Some seg.

(** Unfolds the monad of a handler. *)
Ltac run_handler :=
  unfold bind, gets, ret, send, when, modify; simpl.

(** ** Lemmas on the stores *)

Lemma find_all_false {A} (p : A -> bool) (l : list A) :
  (forall x, In x l -> p x = false) -> find p l = None.
Proof.
  induction l as [|a l IH]; intros H; simpl; [reflexivity|].
  rewrite (H a (or_introl eq_refl)). apply IH.
  intros x Hx. apply H. now right.
Qed.

Lemma unique_id_determines fs a b :
  NoDup (map doc_id fs) -> In a fs -> In b fs -> doc_id a = doc_id b -> a = b.
Proof.
  induction fs as [|d fs IH]; simpl; [tauto|].
  rewrite NoDup_cons. intros [Hd Hnd] [Ha|Ha] [Hb|Hb] Hid; subst.
  - reflexivity.
  - exfalso. apply Hd. rewrite Hid. apply list_elem_of_In, in_map, Hb.
  - exfalso. apply Hd. rewrite <- Hid. apply list_elem_of_In, in_map, Ha.
  - now apply IH.
Qed.

Lemma fold_push_map {A B} (g : A -> B) (docs : list A) (acc : list B) :
  fold_left (fun fileList doc => fileList ++ [g doc]) docs acc = acc ++ map g docs.
Proof.
  revert acc. induction docs as [|d docs IH]; intros acc; simpl.
  - now rewrite app_nil_r.
  - rewrite IH, <- app_assoc. reflexivity.
Qed.

Lemma isOwnerAndPublic_spec file userId :
  fileUtils.isOwnerAndPublic file userId = true <->
  doc_isPublic file = true \/ userId = Some (doc_userId file).
Proof.
  unfold fileUtils.isOwnerAndPublic.
  rewrite orb_true_iff, bool_decide_eq_true. reflexivity.
Qed.

Lemma isOwnerAndPublic_false file userId :
  fileUtils.isOwnerAndPublic file userId = false <->
  doc_isPublic file = false /\ userId <> Some (doc_userId file).
Proof.
  unfold fileUtils.isOwnerAndPublic.
  rewrite orb_false_iff, bool_decide_eq_false. reflexivity.
Qed.

(** ** Content retrieval *)

(** [getFile] reads the stores and leaves them as they are; its answer is
    decided by the id check, the lookup, the visibility check, the folder
    check and the read of the bytes, in this order. *)
Lemma getFile_run E request w :
  FilesController.getFile E request w =
  (if negb (isValidId E (Some (params_id request))) then notFound else
   match stored (params_id request) w with
   | None => notFound
   | Some file =>
     if negb (fileUtils.isOwnerAndPublic file (requester request w))
     then notFound else
     if bool_decide (doc_type file = "folder")
     then error 400 "A folder doesn't have content"
     else contentAnswer E file (getFileData E file (sizeOf request) (disk w))
   end, w).
Proof.
  unfold FilesController.getFile, fileUtils.getFile, userUtils.getUserIdAndKey.
  unfold stored, requester, userUtils.getUserIdAndKey, sizeOf, notFound, error.
  run_handler.
  destruct (isValidId E (Some (params_id request))); simpl; [|reflexivity].
  destruct (fileUtils.findOne _ (files w)) as [file|]; [|reflexivity].
  destruct (fileUtils.isOwnerAndPublic file _); simpl; [|reflexivity].
  destruct (bool_decide (doc_type file = "folder")); [reflexivity|].
  unfold contentAnswer, error.
  destruct (getFileData E file _ (disk w)); reflexivity.
Qed.

(** C1, as the code has it.  For a content request for file id F by
    requester R: when F is absent, or F is private and R is not its owner
    (an anonymous R included), the answer is the not-found error; content is
    returned only when F exists and is public or owned by R; and when F
    exists under an id the id check accepts, is public or owned by R and is
    not a folder, the answer is that of the read of its bytes, the content
    when they are there.  The stores are left unchanged. *)
Theorem getFile_access E request w :
  let F := stored (params_id request) w in
  let R := requester request w in
  let answer := fst (FilesController.getFile E request w) in
  (F = None \/
   (exists f, F = Some f /\ doc_isPublic f = false /\ R <> Some (doc_userId f)) ->
   answer = notFound) /\
  (returnsContent answer = true ->
   exists f, F = Some f /\ (doc_isPublic f = true \/ R = Some (doc_userId f))) /\
  (forall f, F = Some f ->
   doc_isPublic f = true \/ R = Some (doc_userId f) ->
   isValidId E (Some (params_id request)) = true ->
   doc_type f <> "folder" ->
   answer = contentAnswer E f (getFileData E f (sizeOf request) (disk w))) /\
  snd (FilesController.getFile E request w) = w.
Proof.
  intros F R answer. subst answer. rewrite getFile_run. simpl. subst F R.
  repeat split.
  - intros [HF | (f & HF & Hpriv & Hown)]; rewrite HF;
      destruct (isValidId E _); simpl; try reflexivity.
    rewrite (proj2 (isOwnerAndPublic_false f _) (conj Hpriv Hown)). reflexivity.
  - destruct (isValidId E _); simpl; [|discriminate].
    destruct (stored _ w) as [f|]; [|discriminate].
    destruct (fileUtils.isOwnerAndPublic f _) eqn:Hok; simpl; [|discriminate].
    intros _. exists f. split; [reflexivity|]. now apply isOwnerAndPublic_spec.
  - intros f HF Hok Hvalid Hty. rewrite HF, Hvalid. simpl.
    apply isOwnerAndPublic_spec in Hok as ->. simpl.
    rewrite bool_decide_eq_false_2 by assumption. reflexivity.
Qed.

(** The read of a private file by its owner. *)
Lemma getFile_access_witness :
  fst (FilesController.getFile Sample.env
         (Sample.forFile (Some "tok-alice") Sample.notesId) Sample.world) =
  Sent {| status := 200; content_type := Some "text/plain; charset=utf-8";
          payload := Content "hello" |}.
Proof.
  refine (proj1 (proj2 (proj2 (getFile_access Sample.env
            (Sample.forFile (Some "tok-alice") Sample.notesId) Sample.world)))
          Sample.notes _ _ _ _).
  - vm_compute. reflexivity.
  - right. vm_compute. reflexivity.
  - vm_compute. reflexivity.
  - vm_compute. discriminate.
Defined.

(** C1 as stated fails on a public folder: the file exists and is public,
    and the answer is the folder error, not its content. *)
Lemma getFile_public_folder_no_content :
  ~ (returnsContent
       (fst (FilesController.getFile Sample.env
               (Sample.forFile None Sample.docsId) Sample.world)) = true <->
     exists f, stored Sample.docsId Sample.world = Some f /\
               (doc_isPublic f = true \/
                requester (Sample.forFile None Sample.docsId) Sample.world
                = Some (doc_userId f))).
Proof.
  intros [_ H].
  assert (Hc : returnsContent
                 (fst (FilesController.getFile Sample.env
                         (Sample.forFile None Sample.docsId) Sample.world))
               = false) by (vm_compute; reflexivity).
  rewrite H in Hc; [discriminate|].
  exists Sample.docs. split; [vm_compute; reflexivity|left; reflexivity].
Qed.

(** C8.  A content request that passes the id check, finds the file and
    passes the visibility check, and whose file is a folder, is answered by
    the client error 400 "A folder doesn't have content", which is not the
    not-found error. *)
Theorem getFile_folder E request w f :
  isValidId E (Some (params_id request)) = true ->
  stored (params_id request) w = Some f ->
  fileUtils.isOwnerAndPublic f (requester request w) = true ->
  doc_type f = "folder" ->
  fst (FilesController.getFile E request w)
  = error 400 "A folder doesn't have content" /\
  fst (FilesController.getFile E request w) <> notFound.
Proof.
  intros Hvalid HF Hok Hty. rewrite getFile_run. simpl.
  rewrite Hvalid, HF, Hok. simpl.
  rewrite bool_decide_eq_true_2 by assumption.
  split; [reflexivity|discriminate].
Qed.

Lemma getFile_folder_witness :
  fst (FilesController.getFile Sample.env
         (Sample.forFile (Some "tok-bob") Sample.docsId) Sample.world)
  = error 400 "A folder doesn't have content" /\
  fst (FilesController.getFile Sample.env
         (Sample.forFile (Some "tok-bob") Sample.docsId) Sample.world)
  <> notFound.
Proof.
  apply (getFile_folder Sample.env
           (Sample.forFile (Some "tok-bob") Sample.docsId) Sample.world
           Sample.docs); vm_compute; reflexivity.
Defined.

(** ** Metadata lookup *)

Lemma getShow_run E request w :
  FilesController.getShow E request w =
  (if authenticated request w then
     if negb (isValidId E (Some (params_id request))) ||
        negb (isValidId E (requester request w))
     then notFound else
     match fileUtils.findOne
             {| fileUtils.flt_id := ObjectId (Some (params_id request));
                fileUtils.flt_userId := Some (ObjectId (requester request w)) |}
             (files w) with
     | None => notFound
     | Some doc =>
       Sent {| status := 200; content_type := None;
               payload := FileObj (fileUtils.processFile doc) |}
     end
   else error 401 "Unauthorized", w).
Proof.
  unfold FilesController.getShow, authenticated, requester, notFound, error.
  unfold fileUtils.getFile, userUtils.getUser, userUtils.getUserIdAndKey.
  run_handler.
  destruct (find _ (users w)); [|reflexivity].
  destruct (negb _ || negb _); [reflexivity|].
  destruct (fileUtils.findOne _ (files w)); reflexivity.
Qed.

(** A lookup scoped to an owner misses the files of the other users. *)
Lemma findOne_foreign w f (R : option string) :
  uniqueIds w -> In f (files w) -> R <> Some (doc_userId f) ->
  fileUtils.findOne {| fileUtils.flt_id := ObjectId (Some (doc_id f));
                       fileUtils.flt_userId := Some (ObjectId R) |} (files w)
  = None.
Proof.
  intros Huniq Hf Hother. apply find_all_false. intros d Hd.
  unfold fileUtils.matches. simpl.
  destruct (bool_decide (doc_id f = doc_id d)) eqn:Hid; [|reflexivity].
  apply bool_decide_eq_true in Hid.
  assert (d = f) as -> by (apply (unique_id_determines (files w)); auto).
  simpl. destruct R as [r|]; simpl; [|reflexivity].
  apply bool_decide_eq_false. congruence.
Qed.

Lemma findOne_missing q fs missing :
  fileUtils.flt_id q = Oid missing ->
  (forall d, In d fs -> doc_id d <> missing) ->
  fileUtils.findOne q fs = None.
Proof.
  intros Hq Hmiss. apply find_all_false. intros d Hd.
  unfold fileUtils.matches. rewrite Hq. simpl.
  rewrite bool_decide_eq_false_2; [reflexivity|].
  intros ->. now apply (Hmiss d).
Qed.

(** C2.  For an authenticated requester, the metadata lookup of a stored
    file that another user owns and the lookup of an id that matches no file
    have the same answer, the not-found error, and leave the stores as they
    are: the requester cannot tell the two apart. *)
Theorem getShow_hides_foreign_file E request w f missing :
  authenticated request w = true ->
  uniqueIds w ->
  In f (files w) ->
  requester request w <> Some (doc_userId f) ->
  (forall d, In d (files w) -> doc_id d <> missing) ->
  FilesController.getShow E (withId request (doc_id f)) w = (notFound, w) /\
  FilesController.getShow E (withId request missing) w = (notFound, w).
Proof.
  intros Hauth Huniq Hf Hother Hmiss.
  rewrite !getShow_run.
  change (authenticated (withId request _) w) with (authenticated request w).
  change (requester (withId request _) w) with (requester request w).
  rewrite Hauth. simpl params_id. split.
  - destruct (negb _ || negb _); [reflexivity|].
    now rewrite findOne_foreign.
  - destruct (negb _ || negb _); [reflexivity|].
    now rewrite (findOne_missing _ _ missing).
Qed.

Lemma sample_uniqueIds : uniqueIds Sample.world.
Proof.
  unfold uniqueIds.
  apply (bool_decide_unpack (NoDup (map doc_id (files Sample.world)))).
  vm_compute. exact I.
Defined.

Lemma getShow_hides_foreign_file_witness :
  FilesController.getShow Sample.env
    (withId (Sample.forFile (Some "tok-bob") "") Sample.notesId) Sample.world
  = (notFound, Sample.world) /\
  FilesController.getShow Sample.env
    (withId (Sample.forFile (Some "tok-bob") "") Sample.missingId) Sample.world
  = (notFound, Sample.world).
Proof.
  apply (getShow_hides_foreign_file Sample.env
           (Sample.forFile (Some "tok-bob") "") Sample.world
           Sample.notes Sample.missingId).
  - vm_compute. reflexivity.
  - exact sample_uniqueIds.
  - simpl. right. left. reflexivity.
  - vm_compute. discriminate.
  - intros d [<-|[<-|[<-|[]]]]; vm_compute; discriminate.
Defined.

(** ** Listing *)

Lemma normalizePage_cases n :
  FilesController.normalizePage n = match n with NaN => Num 0 | Num z => Num z end.
Proof.
  destruct n as [|z]; [reflexivity|].
  unfold FilesController.normalizePage, or_zero.
  destruct (Z.eqb_spec z 0) as [->|_]; reflexivity.
Qed.

Lemma listPage_run k page w :
  FilesController.listPage k page w = (listing k page (files w), w).
Proof.
  unfold FilesController.listPage, listing, fileUtils.getFilesOfParentId.
  unfold bind, gets, send, ret.
  destruct (fileUtils.aggregate _ (files w)) as [docs|]; [|reflexivity].
  now rewrite fold_push_map.
Qed.

Lemma getIndex_run E request w :
  FilesController.getIndex E request w =
  (if authenticated request w then
     match listedParent request with
     | Root => listing Zero (FilesController.normalizePage (query_page request)) (files w)
     | Parent p =>
       if negb (isValidId E (Some p)) then error 401 "Unauthorized" else
       if fileUtils.resolvesToFolder (files w) p
       then listing (Ref (ObjectId (Some p)))
                    (FilesController.normalizePage (query_page request)) (files w)
       else emptyList
     end
   else error 401 "Unauthorized", w).
Proof.
  unfold FilesController.getIndex, authenticated, requester, error, emptyList.
  unfold userUtils.getUser, userUtils.getUserIdAndKey.
  unfold bind at 1 2, gets at 1 2. simpl.
  destruct (find _ (users w)); [|reflexivity].
  fold (listedParent request).
  destruct (listedParent request) as [|p]; [apply listPage_run|].
  destruct (isValidId E (Some p)); simpl; [|reflexivity].
  unfold fileUtils.resolvesToFolder, fileUtils.getFile.
  unfold bind at 1, gets at 1. simpl.
  destruct (fileUtils.findOne _ (files w)) as [f|]; [|reflexivity].
  destruct (bool_decide (doc_type f = "folder")); simpl;
    [apply listPage_run|reflexivity].
Qed.

(** X22.  A listing by an authenticated user whose non-zero [parentId]
    passes the id check and does not resolve to a stored file of type folder
    is answered by the empty sequence, as a success, and leaves the stores
    as they are. *)
Theorem getIndex_unresolved_parent E request w p :
  authenticated request w = true ->
  listedParent request = Parent p ->
  isValidId E (Some p) = true ->
  fileUtils.resolvesToFolder (files w) p = false ->
  FilesController.getIndex E request w = (emptyList, w).
Proof.
  intros Hauth Hp Hvalid Hres.
  now rewrite getIndex_run, Hauth, Hp, Hvalid, Hres.
Qed.

Lemma getIndex_unresolved_parent_witness :
  FilesController.getIndex Sample.env
    (Sample.forList (Some "tok-alice") (Some Sample.missingId) NaN) Sample.world
  = (emptyList, Sample.world).
Proof.
  apply (getIndex_unresolved_parent Sample.env _ _ Sample.missingId);
    vm_compute; reflexivity.
Defined.

(** C3 at a [parentId] that is not a well-formed id.  The user is
    authenticated, the [parentId] is non-zero and resolves to no folder, and
    the answer is the error 401 "Unauthorized", not the empty sequence that
    the handler's own description promises for a parent that does not
    exist. *)
Lemma getIndex_malformed_parent_unauthorized :
  authenticated (Sample.forList (Some "tok-alice") (Some "xyz") NaN)
                Sample.world = true /\
  listedParent (Sample.forList (Some "tok-alice") (Some "xyz") NaN)
  = Parent "xyz" /\
  fileUtils.resolvesToFolder (files Sample.world) "xyz" = false /\
  fst (FilesController.getIndex Sample.env
         (Sample.forList (Some "tok-alice") (Some "xyz") NaN) Sample.world)
  = error 401 "Unauthorized" /\
  fst (FilesController.getIndex Sample.env
         (Sample.forList (Some "tok-alice") (Some "xyz") NaN) Sample.world)
  <> emptyList.
Proof.
  repeat split; try (vm_compute; reflexivity).
  vm_compute. discriminate.
Qed.

Lemma listing_page k n fs :
  (0 <= n)%Z ->
  listing k (Num n) fs =
  Sent {| status := 200; content_type := None;
          payload := FileList (map fileUtils.processFile
                                   (pageOf n (children k fs))) |}.
Proof.
  intros Hn. unfold listing, pageOf, children. simpl.
  destruct (Z.ltb_spec (n * 20) 0) as [Hneg|_]; [lia|].
  reflexivity.
Qed.

Lemma listing_negative k n fs : (n < 0)%Z -> listing k (Num n) fs = Rejected.
Proof.
  intros Hn. unfold listing. simpl.
  destruct (Z.ltb_spec (n * 20) 0) as [_|Hpos]; [reflexivity|lia].
Qed.

(** X8.  Every negative page is kept as it is: the listing of the root or
    of a folder by an authenticated user then skips a negative number of
    documents, which the database refuses, and the request gets no answer;
    the stores are as before. *)
Lemma getIndex_negative_rejected E request w k n :
  authenticated request w = true ->
  listedFolder E request w = Some k ->
  query_page request = Num n ->
  (n < 0)%Z ->
  FilesController.getIndex E request w = (Rejected, w).
Proof.
  intros Hauth Hk Hpage Hn.
  rewrite getIndex_run, Hauth, Hpage, normalizePage_cases.
  unfold listedFolder in Hk.
  destruct (listedParent request) as [|p].
  - now rewrite listing_negative.
  - destruct (isValidId E (Some p)); simpl in *; [|discriminate].
    destruct (fileUtils.resolvesToFolder (files w) p); [|discriminate].
    now rewrite listing_negative.
Qed.

Lemma pageOf_length n docs : length (pageOf n docs) <= 20.
Proof. unfold pageOf. rewrite length_take. lia. Qed.

(** X7.  What holds of the pages: a page that is not numeric is normalized to 0,
    a numeric page is kept, and for a page that is not negative the listing
    of the root or of a folder answers with at most 20 files, the children
    of the parent from offset [page * 20] on. *)
Lemma getIndex_page E request w k n :
  authenticated request w = true ->
  listedFolder E request w = Some k ->
  FilesController.normalizePage (query_page request) = Num n ->
  (0 <= n)%Z ->
  FilesController.getIndex E request w =
  (Sent {| status := 200; content_type := None;
           payload := FileList (map fileUtils.processFile
                                    (pageOf n (children k (files w)))) |}, w) /\
  length (map fileUtils.processFile (pageOf n (children k (files w)))) <= 20.
Proof.
  intros Hauth Hk Hpage Hn. split.
  - rewrite getIndex_run, Hauth, Hpage. unfold listedFolder in Hk.
    destruct (listedParent request) as [|p].
    + injection Hk as <-. now rewrite listing_page.
    + destruct (isValidId E (Some p)); simpl in *; [|discriminate].
      destruct (fileUtils.resolvesToFolder (files w) p); [|discriminate].
      injection Hk as <-. now rewrite listing_page.
  - rewrite length_map. apply pageOf_length.
Qed.

(** C4 at a negative page.  The page [-1] is not normalized to [0]: it is
    kept, the pipeline skips [-20] documents, which the database refuses,
    and the request of an authenticated user for the root gets no answer. *)
Theorem getIndex_negative_page :
  FilesController.normalizePage (Num (-1)) = Num (-1) /\
  authenticated (Sample.forList (Some "tok-alice") None (Num (-1)))
                Sample.world = true /\
  fst (FilesController.getIndex Sample.env
         (Sample.forList (Some "tok-alice") None (Num (-1))) Sample.world)
  = Rejected /\
  fst (FilesController.getIndex Sample.env
         (Sample.forList (Some "tok-alice") None (Num 0)) Sample.world)
  = Sent {| status := 200; content_type := None;
            payload := FileList [ fileUtils.processFile Sample.docs;
                                  fileUtils.processFile Sample.photo ] |}.
Proof. repeat split; vm_compute; reflexivity. Qed.

(** ** Upload *)

Lemma mayUpload_inv E request w :
  mayUpload E request w = true ->
  isValidId E (requester request w) = true /\
  truthy (requester request w) = true /\
  authenticated request w = true.
Proof.
  unfold mayUpload. rewrite !andb_true_iff. tauto.
Qed.

(** The upload of a user that passes the checks: validation, the check of
    the parent id, the save and the job. *)
Lemma postUpload_run E request w :
  mayUpload E request w = true ->
  FilesController.postUpload E request w =
  match fileUtils.validate (body request) (files w) with
  | inl validationError => (error 400 validationError, w)
  | inr fileParams =>
    if negb (parentIdAccepted E fileParams)
    then (error 400 "Parent not found", w) else
    let '(saved, w1) :=
      FilesController.saveFile_call E (requester request w) fileParams
        (FilesController.FOLDER_PATH E) w in
    match saved with
    | SaveError code msg =>
      (Sent {| status := code; content_type := None; payload := Raw msg |},
       enqueuedIf (is_str (body_type (body request)) "image")
         {| job_fileId := None; job_userId := requester request w |} w1)
    | Saved newFile =>
      (Sent {| status := 201; content_type := None; payload := FileObj newFile |},
       enqueuedIf (bool_decide (fp_type fileParams = "image"))
         (thumbnailJob newFile) w1)
    end
  end.
Proof.
  intros Hmay. apply mayUpload_inv in Hmay as (Hvalid & Htruthy & Hauth).
  unfold FilesController.postUpload, authenticated, requester in *.
  unfold userUtils.getUser, userUtils.getUserIdAndKey, fileUtils.validateBody in *.
  unfold bind at 1, gets at 1. simpl in *. rewrite Hvalid. simpl.
  rewrite Htruthy. simpl.
  unfold bind at 1 2 3, when at 1, ret at 1, gets at 1 2. simpl.
  destruct (find _ (users w)); [|discriminate].
  destruct (fileUtils.validate _ (files w)) as [e|fileParams]; [reflexivity|].
  unfold parentIdAccepted.
  assert (Hparent :
    match fp_parentId fileParams with
    | Root => false
    | Parent p => negb (isValidId E (Some p))
    end = negb match fp_parentId fileParams with
               | Root => true
               | Parent p => isValidId E (Some p)
               end) by (destruct (fp_parentId fileParams); reflexivity).
  rewrite Hparent. clear Hparent.
  destruct (negb _); [reflexivity|].
  unfold bind at 1.
  destruct (FilesController.saveFile_call E _ fileParams _ w) as [[code msg|newFile] w1].
  - unfold enqueuedIf. destruct (is_str _ "image"); reflexivity.
  - unfold enqueuedIf. destruct (bool_decide (fp_type fileParams = "image"));
      reflexivity.
Qed.

Lemma validate_payloadOk b fs :
  payloadOk b = true ->
  exists name type,
    body_name b = Some name /\ body_type b = Some type /\
    fileUtils.validate b fs =
    let fileParams :=
      {| fp_name := name; fp_type := type;
         fp_parentId := default Root (body_parentId b);
         fp_isPublic := default false (body_isPublic b);
         fp_data := body_data b |} in
    match default Root (body_parentId b) with
    | Root => inr fileParams
    | Parent p =>
      if fileUtils.resolvesToFolder fs p then inr fileParams
      else inl "Parent not found"
    end.
Proof.
  unfold payloadOk, fileUtils.validate, truthy.
  destruct (body_name b) as [name|]; [|discriminate].
  destruct (body_type b) as [type|]; [|now rewrite andb_false_r].
  rewrite !andb_true_iff, orb_true_iff. intros (Hname & Hty & Hdata).
  exists name, type. repeat split.
  apply negb_true_iff in Hname. rewrite Hname, Hty. simpl.
  destruct Hdata as [Hd|Hd]; apply negb_true_iff in Hd; rewrite Hd;
    rewrite ?andb_false_r; reflexivity.
Qed.

(** The parameters that pass validation have the type of the payload and a
    parent that resolves. *)
Lemma validate_inr b fs fileParams :
  fileUtils.validate b fs = inr fileParams ->
  body_type b = Some (fp_type fileParams) /\
  fp_parentId fileParams = default Root (body_parentId b) /\
  match fp_parentId fileParams with
  | Root => True
  | Parent p => fileUtils.resolvesToFolder fs p = true
  end.
Proof.
  unfold fileUtils.validate.
  destruct (body_name b) as [name|]; [|discriminate].
  destruct (bool_decide (name = "")); [discriminate|].
  destruct (body_type b) as [type|]; [|discriminate].
  destruct (negb (fileUtils.allowedType type)); [discriminate|].
  destruct (_ && _); [discriminate|].
  destruct (default Root (body_parentId b)) as [|p] eqn:Hp.
  - intros [= <-]. simpl. auto.
  - destruct (fileUtils.resolvesToFolder fs p) eqn:Hres; [|discriminate].
    intros [= <-]. simpl. auto.
Qed.

(** C5.  The validation of an upload checks its rules in order and the
    first failure wins: a missing or empty name gives "Missing name";
    otherwise a type that is missing or not folder, file or image gives
    "Missing type"; otherwise a file or an image without data gives "Missing
    data"; and [postUpload] answers a validation error of a user that passes
    its checks as a client error 400 and leaves the stores as they are. *)
Theorem validateBody_first_failure E request w :
  let b := body request in
  let result := fileUtils.validate b (files w) in
  (body_name b = None \/ body_name b = Some "" ->
   result = inl "Missing name") /\
  (truthy (body_name b) = true ->
   (body_type b = None \/
    exists t, body_type b = Some t /\ t <> "folder" /\ t <> "file" /\ t <> "image") ->
   result = inl "Missing type") /\
  (truthy (body_name b) = true ->
   body_type b = Some "file" \/ body_type b = Some "image" ->
   body_data b = None ->
   result = inl "Missing data") /\
  fst (fileUtils.validateBody request w) = result /\
  (forall validationError,
   mayUpload E request w = true ->
   result = inl validationError ->
   FilesController.postUpload E request w = (error 400 validationError, w)).
Proof.
  intros b result. subst result. repeat split.
  - unfold fileUtils.validate. intros [-> | ->]; reflexivity.
  - unfold fileUtils.validate, truthy.
    destruct (body_name b) as [name|]; [|discriminate].
    intros Hname. apply negb_true_iff in Hname. rewrite Hname.
    intros [-> | (t & -> & Hfo & Hfi & Him)]; [reflexivity|].
    unfold fileUtils.allowedType.
    rewrite !bool_decide_eq_false_2 by assumption. reflexivity.
  - unfold fileUtils.validate, truthy.
    destruct (body_name b) as [name|]; [|discriminate].
    intros Hname. apply negb_true_iff in Hname. rewrite Hname.
    intros [-> | ->] ->; reflexivity.
  - intros e Hmay He. rewrite postUpload_run by assumption.
    fold b. now rewrite He.
Qed.

Lemma validateBody_first_failure_witness :
  FilesController.postUpload Sample.env
    (Sample.upload (Some "tok-alice") (Some "a.png") (Some "image") None None)
    Sample.world
  = (error 400 "Missing data", Sample.world).
Proof.
  pose proof (validateBody_first_failure Sample.env
    (Sample.upload (Some "tok-alice") (Some "a.png") (Some "image") None None)
    Sample.world) as (_ & _ & Hdata & _ & Hsend).
  apply Hsend; [vm_compute; reflexivity|].
  apply Hdata; [vm_compute; reflexivity|right; reflexivity|reflexivity].
Defined.

Lemma saveFile_call_queues E userId fileParams folder w :
  let w1 := snd (FilesController.saveFile_call E userId fileParams folder w) in
  fileQueue w1 = fileQueue w /\ userQueue w1 = userQueue w /\ users w1 = users w.
Proof.
  unfold FilesController.saveFile_call.
  destruct (saveFile E userId fileParams folder (files w, disk w)) as [r [fs d]].
  simpl. auto.
Qed.

Lemma validate_unresolved b fs p :
  body_parentId b = Some (Parent p) ->
  fileUtils.resolvesToFolder fs p = false ->
  exists validationError, fileUtils.validate b fs = inl validationError.
Proof.
  intros Hp Hres.
  destruct (fileUtils.validate b fs) as [e|fileParams] eqn:Hv; [now exists e|].
  apply validate_inr in Hv as (_ & Hparent & Hok).
  rewrite Hparent, Hp in Hok. simpl in Hok. congruence.
Qed.

(** Every upload, whoever sends it: the checks on the user, then what
    [postUpload_run] says, on the world in which the job [{}] of an image
    without a user id has been enqueued. *)
Lemma postUpload_general E request w :
  let w0 := enqueuedIf (negb (truthy (requester request w)) &&
                        is_str (body_type (body request)) "image")
                       {| job_fileId := None; job_userId := None |} w in
  FilesController.postUpload E request w =
  if negb (isValidId E (requester request w))
  then (error 401 "Unauthorized", w) else
  if negb (authenticated request w)
  then (error 401 "Unauthorized", w0) else
  match fileUtils.validate (body request) (files w) with
  | inl validationError => (error 400 validationError, w0)
  | inr fileParams =>
    if negb (parentIdAccepted E fileParams)
    then (error 400 "Parent not found", w0) else
    let '(saved, w1) :=
      FilesController.saveFile_call E (requester request w) fileParams
        (FilesController.FOLDER_PATH E) w0 in
    match saved with
    | SaveError code msg =>
      (Sent {| status := code; content_type := None; payload := Raw msg |},
       enqueuedIf (is_str (body_type (body request)) "image")
         {| job_fileId := None; job_userId := requester request w |} w1)
    | Saved newFile =>
      (Sent {| status := 201; content_type := None; payload := FileObj newFile |},
       enqueuedIf (bool_decide (fp_type fileParams = "image"))
         (thumbnailJob newFile) w1)
    end
  end.
Proof.
  unfold FilesController.postUpload, authenticated, requester.
  unfold userUtils.getUser, userUtils.getUserIdAndKey, fileUtils.validateBody.
  unfold bind at 1, gets at 1. simpl.
  destruct (isValidId E _); simpl; [|reflexivity].
  unfold bind at 1.
  assert (Hwhen : forall b j,
            when b (fileQueue_add j) w = (tt, enqueuedIf b j w))
    by (intros [] j; reflexivity).
  rewrite Hwhen. clear Hwhen.
  set (w0 := enqueuedIf _ _ w).
  assert (Hw0 : users w0 = users w /\ files w0 = files w).
  { subst w0. unfold enqueuedIf. destruct (_ && _); simpl; auto. }
  destruct Hw0 as [Hu Hf].
  unfold bind at 1 2, gets at 1 2. simpl. rewrite Hu.
  destruct (find _ (users w)); [|reflexivity]. simpl. rewrite Hf.
  destruct (fileUtils.validate _ (files w)) as [e|fileParams]; [reflexivity|].
  assert (Hparent :
    match fp_parentId fileParams with
    | Root => false
    | Parent p => negb (isValidId E (Some p))
    end = negb (parentIdAccepted E fileParams))
    by (unfold parentIdAccepted; destruct (fp_parentId fileParams); reflexivity).
  rewrite Hparent. clear Hparent.
  destruct (negb (parentIdAccepted E fileParams)); [reflexivity|].
  unfold bind at 1.
  destruct (FilesController.saveFile_call E _ fileParams _ w0) as [[code msg|newFile] w1].
  - unfold enqueuedIf. destruct (is_str _ "image"); reflexivity.
  - unfold enqueuedIf. destruct (bool_decide (fp_type fileParams = "image"));
      reflexivity.
Qed.

(** C6.  An upload whose non-zero [parentId] does not resolve to a stored
    file of type folder fails with an error and persists neither a file
    record nor content bytes; sent by a user that passes the checks, with a
    payload that passes the rules on name, type and data, it fails with the
    client error 400 "Parent not found" and leaves every store as it is. *)
Theorem postUpload_parent_not_found E request w p :
  body_parentId (body request) = Some (Parent p) ->
  fileUtils.resolvesToFolder (files w) p = false ->
  let r := FilesController.postUpload E request w in
  (files (snd r) = files w /\ disk (snd r) = disk w /\
   exists code msg, fst r = error code msg) /\
  (mayUpload E request w = true ->
   payloadOk (body request) = true ->
   r = (error 400 "Parent not found", w)).
Proof.
  intros Hp Hres r. subst r. split.
  - rewrite postUpload_general.
    destruct (validate_unresolved _ _ _ Hp Hres) as [e ->].
    set (w0 := enqueuedIf _ _ w).
    assert (Hw0 : files w0 = files w /\ disk w0 = disk w).
    { subst w0. unfold enqueuedIf. destruct (_ && _); simpl; auto. }
    destruct Hw0 as [Hf Hd].
    destruct (negb (isValidId E _)); [simpl; eauto|].
    destruct (negb (authenticated request w)); simpl; eauto.
  - intros Hmay Hok. rewrite postUpload_run by assumption.
    destruct (validate_payloadOk _ (files w) Hok) as (name & type & _ & _ & ->).
    rewrite Hp. simpl. now rewrite Hres.
Qed.

Lemma postUpload_parent_not_found_witness :
  FilesController.postUpload Sample.env
    (Sample.upload (Some "tok-alice") (Some "a.txt") (Some "file")
                   (Some (Parent Sample.missingId)) (Some "aGVsbG8="))
    Sample.world
  = (error 400 "Parent not found", Sample.world).
Proof.
  apply (proj2 (postUpload_parent_not_found Sample.env
    (Sample.upload (Some "tok-alice") (Some "a.txt") (Some "file")
                   (Some (Parent Sample.missingId)) (Some "aGVsbG8="))
    Sample.world Sample.missingId eq_refl eq_refl));
    vm_compute; reflexivity.
Defined.

(** C10.  When the save step of an upload of type image fails, the job
    [{ userId }], without [fileId], is added to the file queue and the error
    of the save step is sent with its code; an upload whose type is not
    image adds no job to the file queue, whether it fails or not. *)
Theorem postUpload_failed_save E request w :
  (forall fileParams code msg st,
   mayUpload E request w = true ->
   fileUtils.validate (body request) (files w) = inr fileParams ->
   parentIdAccepted E fileParams = true ->
   saveFile E (requester request w) fileParams (FilesController.FOLDER_PATH E)
            (files w, disk w) = (SaveError code msg, st) ->
   body_type (body request) = Some "image" ->
   fst (FilesController.postUpload E request w)
   = Sent {| status := code; content_type := None; payload := Raw msg |} /\
   exists userId, requester request w = Some userId /\
   fileQueue (snd (FilesController.postUpload E request w))
   = fileQueue w ++ [userJob userId]) /\
  (body_type (body request) <> Some "image" ->
   fileQueue (snd (FilesController.postUpload E request w)) = fileQueue w).
Proof.
  split.
  - intros fileParams code msg [fs d] Hmay Hv Hparent Hsave Himage.
    rewrite postUpload_run by assumption. rewrite Hv, Hparent. simpl.
    unfold FilesController.saveFile_call. rewrite Hsave, Himage. simpl.
    split; [reflexivity|].
    apply mayUpload_inv in Hmay as (_ & Htruthy & _).
    destruct (requester request w) as [userId|]; [|discriminate].
    exists userId. split; reflexivity.
  - intros Himage. rewrite postUpload_general.
    assert (His : is_str (body_type (body request)) "image" = false)
      by now apply bool_decide_eq_false.
    rewrite His, andb_false_r. simpl enqueuedIf.
    destruct (negb (isValidId E _)); [reflexivity|].
    destruct (negb (authenticated request w)); [reflexivity|].
    destruct (fileUtils.validate _ (files w)) as [e|fileParams] eqn:Hv;
      [reflexivity|].
    destruct (negb (parentIdAccepted E fileParams)); [reflexivity|].
    pose proof (saveFile_call_queues E (requester request w) fileParams
                  (FilesController.FOLDER_PATH E) w) as (Hq & _).
    destruct (FilesController.saveFile_call E _ fileParams _ w)
      as [[code msg|newFile] w1]; simpl in *; [exact Hq|].
    apply validate_inr in Hv as (Hty & _).
    rewrite bool_decide_eq_false_2; [exact Hq|].
    intros Hfp. apply Himage. now rewrite Hty, Hfp.
Qed.

Lemma postUpload_failed_save_witness :
  fst (FilesController.postUpload Sample.envFullDisk
         (Sample.upload (Some "tok-alice") (Some "a.png") (Some "image") None
                        (Some "aGk=")) Sample.world)
  = Sent {| status := 400; content_type := None;
            payload := Raw "Cannot write the file" |} /\
  exists userId,
    requester (Sample.upload (Some "tok-alice") (Some "a.png") (Some "image")
                             None (Some "aGk=")) Sample.world = Some userId /\
    fileQueue (snd (FilesController.postUpload Sample.envFullDisk
         (Sample.upload (Some "tok-alice") (Some "a.png") (Some "image") None
                        (Some "aGk=")) Sample.world))
    = fileQueue Sample.world ++ [userJob userId].
Proof.
  eapply (proj1 (postUpload_failed_save Sample.envFullDisk
    (Sample.upload (Some "tok-alice") (Some "a.png") (Some "image") None
                   (Some "aGk=")) Sample.world));
    vm_compute; reflexivity.
Defined.

(** ** Registration *)

Lemma find_first {A} (p : A -> bool) (l : list A) (x : A) :
  In x l -> p x = true -> exists y, find p l = Some y.
Proof.
  induction l as [|a l IH]; simpl; [tauto|].
  intros [->|Hx] Hp.
  - rewrite Hp. eauto.
  - destruct (p a); eauto.
Qed.

Lemma postNew_run E request w :
  let email := default "" (body_email (body request)) in
  let password := default "" (body_password (body request)) in
  UsersController.postNew E request w =
  if negb (truthy (body_email (body request)))
  then (error 400 "Missing email", w) else
  if negb (truthy (body_password (body request)))
  then (error 400 "Missing password", w) else
  match find (fun u => bool_decide (user_email u = email)) (users w) with
  | Some _ => (error 400 "Already exist", w)
  | None =>
    match insertOne E (users w) email (sha1 E password) with
    | None =>
      (error 500 "Error creating user.",
       snd (userQueue_add {| job_fileId := None; job_userId := None |} w))
    | Some (insertedId, us) =>
      (Sent {| status := 201; content_type := None;
               payload := UserObj insertedId email |},
       {| users := us; files := files w; sessions := sessions w;
          disk := disk w; fileQueue := fileQueue w;
          userQueue := userQueue w ++ [userJob insertedId] |})
    end
  end.
Proof.
  unfold UsersController.postNew, UsersController.findOne_email.
  unfold UsersController.insertOne_call.
  destruct (negb (truthy (body_email _))); [reflexivity|].
  destruct (negb (truthy (body_password _))); [reflexivity|].
  run_handler.
  destruct (find _ (users w)); [reflexivity|].
  destruct (insertOne E (users w) _ _) as [[insertedId us]|]; reflexivity.
Qed.

(** C9.  A registration whose email is the email of a user of the Identity
    Store fails with a client error 400 and inserts no user record: every
    store is left as it is.  When it carries a non-empty email and a
    password, the two checks that come first, the error is "Already
    exist". *)
Theorem postNew_existing_email E request w email u :
  body_email (body request) = Some email ->
  In u (users w) ->
  user_email u = email ->
  let r := UsersController.postNew E request w in
  (snd r = w /\ exists msg, fst r = error 400 msg) /\
  (email <> "" ->
   truthy (body_password (body request)) = true ->
   fst r = error 400 "Already exist").
Proof.
  intros Hemail Hu Hmail r. subst r. rewrite postNew_run, Hemail. simpl.
  destruct (find_first (fun u => bool_decide (user_email u = email)) (users w) u)
    as [y Hy]; [assumption|now apply bool_decide_eq_true|].
  rewrite Hy. split.
  - destruct (bool_decide (email = "")); simpl; [eauto|].
    destruct (negb (truthy (body_password _))); simpl; eauto.
  - intros Hne Hpw. rewrite Hpw.
    rewrite bool_decide_eq_false_2 by assumption. reflexivity.
Qed.

Lemma postNew_existing_email_witness :
  fst (UsersController.postNew Sample.env
         (Sample.register (Some "alice@b.com") (Some "pw")) Sample.world)
  = error 400 "Already exist".
Proof.
  apply (proj2 (postNew_existing_email Sample.env
           (Sample.register (Some "alice@b.com") (Some "pw")) Sample.world
           "alice@b.com"
           {| user_id := Sample.alice; user_email := "alice@b.com";
              user_password := "sha1:pw" |}
           eq_refl (or_introl eq_refl) eq_refl)).
  - discriminate.
  - reflexivity.
Defined.

(** ** Jobs *)

Lemma sendPublishResult_run r w :
  snd (FilesController.sendPublishResult r w) = w.
Proof. destruct r; reflexivity. Qed.




(** ** Further properties of the handlers *)

Lemma find_the_one {A} (p : A -> bool) (l : list A) (x : A) :
  In x l -> p x = true ->
  (forall y, In y l -> p y = true -> y = x) ->
  find p l = Some x.
Proof.
  intros Hx Hp Honly.
  destruct (find_first p l x Hx Hp) as [y Hy].
  rewrite Hy. f_equal.
  apply find_some in Hy as [Hin Hpy]. now apply Honly.
Qed.

Lemma sameId_Oid a b : sameId (Oid a) b = true -> a = b.
Proof. simpl. now rewrite bool_decide_eq_true. Qed.

Lemma unique_user_determines us a b :
  NoDup (map user_id us) -> In a us -> In b us -> user_id a = user_id b -> a = b.
Proof.
  induction us as [|d us IH]; simpl; [tauto|].
  rewrite NoDup_cons. intros [Hd Hnd] [Ha|Ha] [Hb|Hb] Hid; subst.
  - reflexivity.
  - exfalso. apply Hd. rewrite Hid. apply list_elem_of_In, in_map, Hb.
  - exfalso. apply Hd. rewrite <- Hid. apply list_elem_of_In, in_map, Ha.
  - now apply IH.
Qed.

Lemma getMe_run request w :
  UsersController.getMe request w =
  (match fst (userUtils.getUser (ObjectId (requester request w)) w) with
   | Some user =>
     Sent {| status := 200; content_type := None;
             payload := UserObj (user_id user) (user_email user) |}
   | None => error 401 "Unauthorized"
   end, w).
Proof.
  unfold UsersController.getMe, requester, error.
  unfold userUtils.getUser, userUtils.getUserIdAndKey.
  run_handler.
  destruct (find _ (users w)); reflexivity.
Qed.

(** X1.  The metadata lookup of a file by its owner: for an authenticated
    requester whose id and the file id pass the id check, and a collection
    with unique ids, [getShow] on the id of a file the requester owns
    answers 200 with the file's metadata, public or not, and leaves the
    stores as they are. *)
Theorem getShow_owner E request w f :
  authenticated request w = true ->
  isValidId E (Some (params_id request)) = true ->
  isValidId E (requester request w) = true ->
  uniqueIds w ->
  In f (files w) ->
  doc_id f = params_id request ->
  requester request w = Some (doc_userId f) ->
  FilesController.getShow E request w =
  (Sent {| status := 200; content_type := None;
           payload := FileObj (fileUtils.processFile f) |}, w).
Proof.
  intros Hauth Hfid Huid Huniq Hf Hid Hown.
  rewrite getShow_run, Hauth, Hfid, Huid. simpl.
  unfold fileUtils.findOne.
  rewrite (find_the_one _ (files w) f); [reflexivity|assumption| |].
  - unfold fileUtils.matches. simpl. rewrite Hown, <- Hid. simpl.
    now rewrite !bool_decide_eq_true_2.
  - intros d Hd Hm. unfold fileUtils.matches in Hm. simpl in Hm.
    apply andb_true_iff in Hm as [Hm _].
    apply bool_decide_eq_true in Hm.
    apply (unique_id_determines (files w)); auto. congruence.
Qed.

Lemma getShow_owner_witness :
  FilesController.getShow Sample.env
    (Sample.forFile (Some "tok-alice") Sample.notesId) Sample.world
  = (Sent {| status := 200; content_type := None;
             payload := FileObj (fileUtils.processFile Sample.notes) |},
     Sample.world).
Proof.
  apply (getShow_owner Sample.env
           (Sample.forFile (Some "tok-alice") Sample.notesId) Sample.world
           Sample.notes).
  - vm_compute. reflexivity.
  - vm_compute. reflexivity.
  - vm_compute. reflexivity.
  - apply (bool_decide_unpack (NoDup (map doc_id (files Sample.world)))).
    vm_compute. exact I.
  - simpl. right. left. reflexivity.
  - reflexivity.
  - vm_compute. reflexivity.
Defined.

(** X2.  The handlers that read, [getShow], [getIndex] and [getMe], leave
    the users, the files, the sessions, the disk and both queues as they
    are, whatever the request and whatever they answer. *)
Theorem readers_change_nothing E request w :
  snd (FilesController.getShow E request w) = w /\
  snd (FilesController.getIndex E request w) = w /\
  snd (UsersController.getMe request w) = w.
Proof.
  rewrite getShow_run, getIndex_run, getMe_run. auto.
Qed.

(** X3.  Metadata is for authenticated users only: when the token of a
    request resolves to no user of the Identity Store (no token, no session,
    or a session of a user that is gone), [getShow], [getIndex] and [getMe]
    answer 401 "Unauthorized", whatever file or parent is asked for. *)
Theorem metadata_requires_authentication E request w :
  authenticated request w = false ->
  fst (FilesController.getShow E request w) = error 401 "Unauthorized" /\
  fst (FilesController.getIndex E request w) = error 401 "Unauthorized" /\
  fst (UsersController.getMe request w) = error 401 "Unauthorized".
Proof.
  intros Hauth. rewrite getShow_run, getIndex_run, getMe_run.
  unfold authenticated in *.
  destruct (fst (userUtils.getUser _ w)); [discriminate|].
  repeat split.
Qed.

Lemma metadata_requires_authentication_witness :
  fst (FilesController.getShow Sample.env
         (Sample.forFile None Sample.docsId) Sample.world)
  = error 401 "Unauthorized" /\
  fst (FilesController.getIndex Sample.env
         (Sample.forFile None Sample.docsId) Sample.world)
  = error 401 "Unauthorized" /\
  fst (UsersController.getMe (Sample.forFile None Sample.docsId) Sample.world)
  = error 401 "Unauthorized".
Proof.
  apply (metadata_requires_authentication Sample.env
           (Sample.forFile None Sample.docsId) Sample.world).
  vm_compute. reflexivity.
Defined.

(** X4.  The current user: when the token resolves to the id of a user of
    the Identity Store, whose ids are unique, [getMe] answers 200 with that
    id and the user's email. *)
Theorem getMe_current_user request w u :
  uniqueUserIds w ->
  In u (users w) ->
  requester request w = Some (user_id u) ->
  UsersController.getMe request w =
  (Sent {| status := 200; content_type := None;
           payload := UserObj (user_id u) (user_email u) |}, w).
Proof.
  intros Huniq Hu Hreq. rewrite getMe_run, Hreq.
  unfold userUtils.getUser, gets. simpl.
  rewrite (find_the_one _ (users w) u); [reflexivity|assumption| |].
  - now apply bool_decide_eq_true.
  - intros y Hy Hm. apply bool_decide_eq_true in Hm.
    apply (unique_user_determines (users w)); auto.
Qed.

Lemma getMe_current_user_witness :
  UsersController.getMe (Sample.forFile (Some "tok-bob") "") Sample.world =
  (Sent {| status := 200; content_type := None;
           payload := UserObj Sample.bob "bob@b.com" |}, Sample.world).
Proof.
  apply (getMe_current_user (Sample.forFile (Some "tok-bob") "") Sample.world
           {| user_id := Sample.bob; user_email := "bob@b.com";
              user_password := "sha1:pw" |}).
  - apply (bool_decide_unpack (NoDup (map user_id (users Sample.world)))).
    vm_compute. exact I.
  - simpl. right. left. reflexivity.
  - vm_compute. reflexivity.
Defined.

(** The listing of the root or of a folder is the pipeline run on the
    collection. *)
Lemma getIndex_listing E request w k :
  authenticated request w = true ->
  listedFolder E request w = Some k ->
  FilesController.getIndex E request w =
  (listing k (FilesController.normalizePage (query_page request)) (files w), w).
Proof.
  intros Hauth Hk. rewrite getIndex_run, Hauth. unfold listedFolder in Hk.
  destruct (listedParent request) as [|p].
  - now injection Hk as <-.
  - destruct (isValidId E (Some p)); simpl in *; [|discriminate].
    destruct (fileUtils.resolvesToFolder (files w) p); [|discriminate].
    now injection Hk as <-.
Qed.

(** X5.  A listing does not look at who asks: the pipeline matches on
    [parentId] alone, so two authenticated users get the same answer to the
    same listing, the files of each other included. *)
Theorem getIndex_ignores_requester E request token w :
  authenticated request w = true ->
  authenticated (withToken request token) w = true ->
  FilesController.getIndex E (withToken request token) w
  = FilesController.getIndex E request w.
Proof.
  intros H1 H2. rewrite !getIndex_run, H1, H2. reflexivity.
Qed.

Lemma getIndex_ignores_requester_witness :
  FilesController.getIndex Sample.env
    (withToken (Sample.forList (Some "tok-alice") None NaN) (Some "tok-bob"))
    Sample.world
  = FilesController.getIndex Sample.env
      (Sample.forList (Some "tok-alice") None NaN) Sample.world.
Proof.
  apply (getIndex_ignores_requester Sample.env
           (Sample.forList (Some "tok-alice") None NaN) (Some "tok-bob")
           Sample.world); vm_compute; reflexivity.
Defined.

(** X6.  The root has three spellings: a listing without [parentId], with
    an empty [parentId] and with [parentId=0] are the same listing. *)
Theorem getIndex_root_spellings E request w :
  FilesController.getIndex E (withParentId request (Some "0")) w
  = FilesController.getIndex E (withParentId request None) w /\
  FilesController.getIndex E (withParentId request (Some "")) w
  = FilesController.getIndex E (withParentId request None) w.
Proof.
  rewrite !getIndex_run. split; reflexivity.
Qed.

Lemma getIndex_page_witness :
  FilesController.getIndex Sample.env
    (Sample.forList (Some "tok-bob") (Some Sample.docsId) (Num 0)) Sample.world
  = (Sent {| status := 200; content_type := None;
             payload := FileList [fileUtils.processFile Sample.notes] |},
     Sample.world).
Proof.
  apply (getIndex_page Sample.env
           (Sample.forList (Some "tok-bob") (Some Sample.docsId) (Num 0))
           Sample.world (Ref (Oid Sample.docsId)) 0);
    [vm_compute; reflexivity | vm_compute; reflexivity
    | vm_compute; reflexivity | lia].
Defined.

Lemma getIndex_negative_rejected_witness :
  FilesController.getIndex Sample.env
    (Sample.forList (Some "tok-bob") (Some Sample.docsId) (Num (-3)))
    Sample.world
  = (Rejected, Sample.world).
Proof.
  apply (getIndex_negative_rejected Sample.env
           (Sample.forList (Some "tok-bob") (Some Sample.docsId) (Num (-3)))
           Sample.world (Ref (Oid Sample.docsId)) (-3));
    [vm_compute; reflexivity | vm_compute; reflexivity
    | reflexivity | lia].
Defined.




(** X10.  A page past the last child is empty, not an error: when the
    listed parent has at most [20 * n] children, page [n] answers 200 with
    the empty sequence. *)
Theorem getIndex_past_the_end E request w k n :
  authenticated request w = true ->
  listedFolder E request w = Some k ->
  query_page request = Num (Z.of_nat n) ->
  length (children k (files w)) <= 20 * n ->
  FilesController.getIndex E request w = (emptyList, w).
Proof.
  intros Hauth Hk Hpage Hlen.
  rewrite (getIndex_listing E request w k) by assumption.
  rewrite Hpage, normalizePage_cases, listing_page by lia.
  unfold pageOf. rewrite drop_ge; [reflexivity|lia].
Qed.

Lemma getIndex_past_the_end_witness :
  FilesController.getIndex Sample.env
    (Sample.forList (Some "tok-bob") None (Num 1)) Sample.world
  = (emptyList, Sample.world).
Proof.
  apply (getIndex_past_the_end Sample.env
           (Sample.forList (Some "tok-bob") None (Num 1)) Sample.world Zero 1);
    [vm_compute; reflexivity | vm_compute; reflexivity | reflexivity
    | vm_compute; lia].
Defined.

(** ** Further properties of the upload *)

Lemma saveFile_call_keeps E userId fileParams folder w :
  let w1 := snd (FilesController.saveFile_call E userId fileParams folder w) in
  users w1 = users w /\ sessions w1 = sessions w /\
  fileQueue w1 = fileQueue w /\ userQueue w1 = userQueue w.
Proof.
  unfold FilesController.saveFile_call.
  destruct (saveFile E userId fileParams folder (files w, disk w)) as [r [fs d]].
  simpl. auto.
Qed.

Lemma enqueuedIf_keeps b j w :
  users (enqueuedIf b j w) = users w /\ files (enqueuedIf b j w) = files w /\
  sessions (enqueuedIf b j w) = sessions w /\ disk (enqueuedIf b j w) = disk w /\
  userQueue (enqueuedIf b j w) = userQueue w.
Proof. destruct b; simpl; auto. Qed.

(** X11.  An upload whose token resolves to no user of the Identity Store is
    answered 401 "Unauthorized" and persists nothing: users, files, sessions,
    disk and user queue are as before.  Its only trace is the job [{}] that
    the file queue gains when the payload's type is image, the request has
    no user id and the id check let that pass. *)
Theorem postUpload_unauthenticated E request w :
  authenticated request w = false ->
  let r := FilesController.postUpload E request w in
  fst r = error 401 "Unauthorized" /\
  users (snd r) = users w /\ files (snd r) = files w /\
  sessions (snd r) = sessions w /\ disk (snd r) = disk w /\
  userQueue (snd r) = userQueue w /\
  fileQueue (snd r) =
  if isValidId E (requester request w) &&
     negb (truthy (requester request w)) &&
     is_str (body_type (body request)) "image"
  then fileQueue w ++ [emptyJob] else fileQueue w.
Proof.
  intros Hauth r. subst r. rewrite postUpload_general, Hauth.
  destruct (isValidId E (requester request w)); simpl; [|repeat split].
  destruct (negb (truthy (requester request w)) && _); simpl; repeat split.
Qed.

Lemma postUpload_unauthenticated_witness :
  fst (FilesController.postUpload Sample.env
         (Sample.upload None (Some "a.png") (Some "image") None (Some "aGk="))
         Sample.world) = error 401 "Unauthorized" /\
  fileQueue (snd (FilesController.postUpload Sample.env
         (Sample.upload None (Some "a.png") (Some "image") None (Some "aGk="))
         Sample.world)) = [emptyJob].
Proof.
  pose proof (postUpload_unauthenticated Sample.env
    (Sample.upload None (Some "a.png") (Some "image") None (Some "aGk="))
    Sample.world eq_refl) as (Hr & _ & _ & _ & _ & _ & Hq).
  split; [exact Hr|exact Hq].
Defined.

(** X12.  An upload never touches the Identity Store, the sessions or the
    user queue, whatever the request, the save step and the answer. *)
Theorem postUpload_keeps_identity E request w :
  let w1 := snd (FilesController.postUpload E request w) in
  users w1 = users w /\ sessions w1 = sessions w /\ userQueue w1 = userQueue w.
Proof.
  intros w1. subst w1. rewrite postUpload_general.
  set (w0 := enqueuedIf _ _ w).
  destruct (enqueuedIf_keeps
              (negb (truthy (requester request w)) &&
               is_str (body_type (body request)) "image")
              {| job_fileId := None; job_userId := None |} w)
    as (Hu & _ & Hs & _ & Hq).
  fold w0 in Hu, Hs, Hq.
  destruct (negb (isValidId E _)); [auto|].
  destruct (negb (authenticated request w)); [auto|].
  destruct (fileUtils.validate _ (files w)) as [e|fileParams]; [auto|].
  destruct (negb (parentIdAccepted E fileParams)); [auto|].
  pose proof (saveFile_call_keeps E (requester request w) fileParams
                (FilesController.FOLDER_PATH E) w0) as (Hu1 & Hs1 & _ & Hq1).
  destruct (FilesController.saveFile_call E _ fileParams _ w0)
    as [[code msg|newFile] w1]; simpl in *.
  - destruct (enqueuedIf_keeps (is_str (body_type (body request)) "image")
                {| job_fileId := None; job_userId := requester request w |} w1)
      as (-> & _ & -> & _ & ->).
    repeat split; congruence.
  - destruct (enqueuedIf_keeps (bool_decide (fp_type fileParams = "image"))
                (thumbnailJob newFile) w1) as (-> & _ & -> & _ & ->).
    repeat split; congruence.
Qed.

(** X13.  An upload answered by an error object [{ error }], the 401 of the
    checks on the user or the 400 of the validation, has stored nothing: the
    files collection and the disk are as before. *)
Theorem postUpload_error_persists_nothing E request w code msg :
  fst (FilesController.postUpload E request w) = error code msg ->
  files (snd (FilesController.postUpload E request w)) = files w /\
  disk (snd (FilesController.postUpload E request w)) = disk w.
Proof.
  rewrite postUpload_general.
  set (w0 := enqueuedIf _ _ w).
  destruct (enqueuedIf_keeps
              (negb (truthy (requester request w)) &&
               is_str (body_type (body request)) "image")
              {| job_fileId := None; job_userId := None |} w)
    as (_ & Hf & _ & Hd & _).
  fold w0 in Hf, Hd.
  destruct (negb (isValidId E _)); [auto|].
  destruct (negb (authenticated request w)); [auto|].
  destruct (fileUtils.validate _ (files w)) as [e|fileParams]; [auto|].
  destruct (negb (parentIdAccepted E fileParams)); [auto|].
  destruct (FilesController.saveFile_call E _ fileParams _ w0)
    as [[c m|newFile] w1]; simpl; discriminate.
Qed.

Lemma postUpload_error_persists_nothing_witness :
  files (snd (FilesController.postUpload Sample.env
     (Sample.upload (Some "tok-alice") (Some "a.bin") (Some "video") None
                    (Some "aGk=")) Sample.world)) = files Sample.world /\
  disk (snd (FilesController.postUpload Sample.env
     (Sample.upload (Some "tok-alice") (Some "a.bin") (Some "video") None
                    (Some "aGk=")) Sample.world)) = disk Sample.world.
Proof.
  apply (postUpload_error_persists_nothing Sample.env
     (Sample.upload (Some "tok-alice") (Some "a.bin") (Some "video") None
                    (Some "aGk=")) Sample.world 400 "Missing type").
  vm_compute. reflexivity.
Defined.

(** ** Further properties of the registration *)

(** X14.  The checks of a registration come in order and change nothing: a
    missing or empty email is answered 400 "Missing email", whatever the
    password; an email with a missing or empty password is answered 400
    "Missing password"; in both cases before the database is looked at. *)
Theorem postNew_missing_fields E request w :
  (truthy (body_email (body request)) = false ->
   UsersController.postNew E request w = (error 400 "Missing email", w)) /\
  (truthy (body_email (body request)) = true ->
   truthy (body_password (body request)) = false ->
   UsersController.postNew E request w = (error 400 "Missing password", w)).
Proof.
  rewrite postNew_run. split.
  - now intros ->.
  - now intros -> ->.
Qed.

Lemma postNew_missing_fields_witness :
  UsersController.postNew Sample.env
    (Sample.register (Some "") None) Sample.world
  = (error 400 "Missing email", Sample.world) /\
  UsersController.postNew Sample.env
    (Sample.register (Some "alice@b.com") (Some "")) Sample.world
  = (error 400 "Missing password", Sample.world).
Proof.
  split.
  - apply (proj1 (postNew_missing_fields Sample.env
                    (Sample.register (Some "") None) Sample.world)).
    reflexivity.
  - apply (proj2 (postNew_missing_fields Sample.env
                    (Sample.register (Some "alice@b.com") (Some ""))
                    Sample.world)); reflexivity.
Defined.

(** X15.  When the insertion of a new user throws, the registration is
    answered 500 "Error creating user.", the job [{}] is added to the user
    queue and no user is stored. *)
Theorem postNew_insert_failure E request w email password :
  body_email (body request) = Some email -> email <> "" ->
  body_password (body request) = Some password -> password <> "" ->
  (forall u, In u (users w) -> user_email u <> email) ->
  insertOne E (users w) email (sha1 E password) = None ->
  let r := UsersController.postNew E request w in
  fst r = error 500 "Error creating user." /\
  users (snd r) = users w /\
  userQueue (snd r) = userQueue w ++ [emptyJob].
Proof.
  intros Hemail Hne Hpw Hpne Hnew Hins r. subst r.
  rewrite postNew_run, Hemail, Hpw. simpl.
  rewrite !bool_decide_eq_false_2 by assumption. simpl.
  rewrite find_all_false.
  - rewrite Hins. simpl. auto.
  - intros u Hu. apply bool_decide_eq_false. now apply Hnew.
Qed.

Lemma postNew_insert_failure_witness :
  fst (UsersController.postNew envNoInsert
         (Sample.register (Some "carol@b.com") (Some "pw")) Sample.world)
  = error 500 "Error creating user." /\
  users (snd (UsersController.postNew envNoInsert
         (Sample.register (Some "carol@b.com") (Some "pw")) Sample.world))
  = users Sample.world /\
  userQueue (snd (UsersController.postNew envNoInsert
         (Sample.register (Some "carol@b.com") (Some "pw")) Sample.world))
  = userQueue Sample.world ++ [emptyJob].
Proof.
  apply (postNew_insert_failure envNoInsert
           (Sample.register (Some "carol@b.com") (Some "pw")) Sample.world
           "carol@b.com" "pw");
    try reflexivity; try discriminate.
  intros u [<-|[<-|[]]]; discriminate.
Defined.

(** X16.  Registering twice: when a registration with a new email succeeds
    and the database then holds a user with that email, it answers 201 with
    the inserted id and the email, the password handed to the database is
    its SHA1 digest, and the same registration sent again is answered 400
    "Already exist" and changes nothing more. *)
Theorem postNew_twice E request w email password id us :
  body_email (body request) = Some email -> email <> "" ->
  body_password (body request) = Some password -> password <> "" ->
  (forall u, In u (users w) -> user_email u <> email) ->
  insertOne E (users w) email (sha1 E password) = Some (id, us) ->
  (exists u, In u us /\ user_email u = email) ->
  let first := UsersController.postNew E request w in
  fst first = Sent {| status := 201; content_type := None;
                      payload := UserObj id email |} /\
  users (snd first) = us /\
  UsersController.postNew E request (snd first)
  = (error 400 "Already exist", snd first).
Proof.
  intros Hemail Hne Hpw Hpne Hnew Hins (u & Hu & Hmail) first. subst first.
  rewrite (postNew_run E request w), Hemail, Hpw. simpl.
  rewrite !bool_decide_eq_false_2 by assumption. simpl.
  rewrite find_all_false
    by (intros x Hx; apply bool_decide_eq_false; now apply Hnew).
  rewrite Hins. simpl. repeat split.
  rewrite postNew_run, Hemail, Hpw. simpl.
  rewrite !bool_decide_eq_false_2 by assumption. simpl.
  destruct (find_first (fun x => bool_decide (user_email x = email)) us u)
    as [y ->]; [assumption|now apply bool_decide_eq_true|reflexivity].
Qed.

Lemma postNew_twice_witness :
  fst (UsersController.postNew Sample.env
         (Sample.register (Some "carol@b.com") (Some "pw")) Sample.world)
  = Sent {| status := 201; content_type := None;
            payload := UserObj "000000000000000000000002" "carol@b.com" |} /\
  UsersController.postNew Sample.env
    (Sample.register (Some "carol@b.com") (Some "pw"))
    (snd (UsersController.postNew Sample.env
            (Sample.register (Some "carol@b.com") (Some "pw")) Sample.world))
  = (error 400 "Already exist",
     snd (UsersController.postNew Sample.env
            (Sample.register (Some "carol@b.com") (Some "pw")) Sample.world)).
Proof.
  pose proof (postNew_twice Sample.env
    (Sample.register (Some "carol@b.com") (Some "pw")) Sample.world
    "carol@b.com" "pw" "000000000000000000000002"
    (users Sample.world ++
     [{| user_id := "000000000000000000000002"; user_email := "carol@b.com";
         user_password := "sha1:pw" |}])) as H.
  destruct H as (H1 & _ & H2); try reflexivity; try discriminate.
  - intros u [<-|[<-|[]]]; discriminate.
  - exists {| user_id := "000000000000000000000002";
              user_email := "carol@b.com"; user_password := "sha1:pw" |}.
    split; [|reflexivity]. simpl. right. right. left. reflexivity.
  - split; assumption.
Defined.

(** X17.  A registration never touches the files, the disk, the sessions
    or the file queue, whatever the request and the answer. *)
Theorem postNew_keeps_files E request w :
  let w1 := snd (UsersController.postNew E request w) in
  files w1 = files w /\ disk w1 = disk w /\ sessions w1 = sessions w /\
  fileQueue w1 = fileQueue w.
Proof.
  intros w1. subst w1. rewrite postNew_run.
  destruct (negb (truthy (body_email _))); [auto|].
  destruct (negb (truthy (body_password _))); [auto|].
  destruct (find _ (users w)); [auto|].
  destruct (insertOne E (users w) _ _) as [[insertedId us]|]; simpl; auto.
Qed.

(** ** What the answers depend on *)

(** X18.  The bytes on the disk reach no answer but that of [getFile] (and
    what [saveFile] hands to [postUpload]): whatever the request and the
    stores, the answers of [getShow], [getIndex], [putPublish],
    [putUnpublish], [postNew] and [getMe] are the same with any other
    content of the disk. *)
Theorem answers_ignore_disk E request w d :
  fst (FilesController.getShow E request (withDisk w d))
  = fst (FilesController.getShow E request w) /\
  fst (FilesController.getIndex E request (withDisk w d))
  = fst (FilesController.getIndex E request w) /\
  fst (FilesController.putPublish request (withDisk w d))
  = fst (FilesController.putPublish request w) /\
  fst (FilesController.putUnpublish request (withDisk w d))
  = fst (FilesController.putUnpublish request w) /\
  fst (UsersController.postNew E request (withDisk w d))
  = fst (UsersController.postNew E request w) /\
  fst (UsersController.getMe request (withDisk w d))
  = fst (UsersController.getMe request w).
Proof.
  assert (Hpublish : forall b,
    fst (bind (fileUtils.publishUnpublish request b)
              FilesController.sendPublishResult (withDisk w d))
    = fst (bind (fileUtils.publishUnpublish request b)
                FilesController.sendPublishResult w)).
  { intros b. destruct w as [us fs ss dk fq uq].
    unfold fileUtils.publishUnpublish, fileUtils.getFile, fileUtils.updateFile.
    unfold userUtils.getUser, userUtils.getUserIdAndKey, withDisk.
    run_handler.
    destruct (find _ us); simpl; [|reflexivity].
    destruct (fileUtils.findOne _ fs) as [f|]; simpl; [|reflexivity].
    destruct (bool_decide (doc_type (fileUtils.setVisibility _ _ f) = "image"));
      reflexivity. }
  repeat split.
  - rewrite !getShow_run. reflexivity.
  - rewrite !getIndex_run. reflexivity.
  - apply (Hpublish true).
  - apply (Hpublish false).
  - rewrite !postNew_run. simpl users.
    destruct (negb (truthy (body_email _))); [reflexivity|].
    destruct (negb (truthy (body_password _))); [reflexivity|].
    destruct (find _ (users w)); [reflexivity|].
    destruct (insertOne E (users w) _ _) as [[insertedId us]|]; reflexivity.
  - rewrite !getMe_run. reflexivity.
Qed.

(** ** The routes *)

#[local] Arguments String.eqb : simpl never.
#[local] Arguments routes.lowercase : simpl never.

Ltac split_route_match H :=
  repeat match type of H with
  | context [String.eqb ?x ?y] =>
    destruct (String.eqb_spec x y); simpl in H; try discriminate H
  end.

Ltac lowercase_literals :=
  repeat match goal with
  | H : routes.lowercase ?s = routes.lowercase ?x |- _ =>
    let v := eval vm_compute in (routes.lowercase s) in
    change (routes.lowercase s) with v in H; revert H
  end; intros.

(** X19.  The routing table is unambiguous: no request, whatever its method
    and path, is matched by two routes, so that the order in which the
    routes are registered decides nothing and no route hides another. *)
Theorem routes_unambiguous m path r1 r2 params1 params2 :
  In r1 routes.controllerRouting ->
  In r2 routes.controllerRouting ->
  routes.matchRoute r1 m path = Some params1 ->
  routes.matchRoute r2 m path = Some params2 ->
  r1 = r2.
Proof.
  intros H1 H2 M1 M2. unfold routes.matchRoute in *.
  simpl in H1, H2.
  repeat (destruct H1 as [<-|H1]); try contradiction;
    repeat (destruct H2 as [<-|H2]); try contradiction; try reflexivity;
    destruct m; simpl in M1, M2; try discriminate;
    destruct path as [|a [|b [|c [|d rest]]]]; simpl in M1, M2;
    try discriminate;
    split_route_match M1; split_route_match M2;
    try discriminate; lowercase_literals; try congruence;
    subst; vm_compute in *; congruence.
Qed.

Lemma routes_unambiguous_witness :
  {| routes.route_method := routes.GET;
     routes.route_path := [routes.Lit "files"; routes.Param "id"];
     routes.route_endpoint := routes.FilesController_getShow |}
  = {| routes.route_method := routes.GET;
       routes.route_path := [routes.Lit "files"; routes.Param "id"];
       routes.route_endpoint := routes.FilesController_getShow |}.
Proof.
  apply (routes_unambiguous routes.GET ["Files"; Sample.notesId; ""] _ _
           [("id", Sample.notesId)] [("id", Sample.notesId)]).
  - simpl. do 7 right. left. reflexivity.
  - simpl. do 7 right. left. reflexivity.
  - vm_compute. reflexivity.
  - vm_compute. reflexivity.
Defined.

(** X20.  Where the requests on files go.  For every non-empty segment
    [id]: when [decodeURIComponent] decodes it to [v], GET /files/id is
    handed to [getShow], GET /files/id/data to [getFile], PUT
    /files/id/publish to [putPublish] and PUT /files/id/unpublish to
    [putUnpublish], each with [request.params.id] set to [v]; when it raises
    on [id], these four requests are answered 400 and reach no handler.  GET
    /files is handed to [getIndex] and POST /files to [postUpload], without
    parameters. *)
Theorem dispatch_files decode id :
  id <> "" ->
  (forall v, decode id = Some v ->
   routes.dispatch decode routes.GET ["files"; id]
   = routes.Handled routes.FilesController_getShow [("id", v)] /\
   routes.dispatch decode routes.GET ["files"; id; "data"]
   = routes.Handled routes.FilesController_getFile [("id", v)] /\
   routes.dispatch decode routes.PUT ["files"; id; "publish"]
   = routes.Handled routes.FilesController_putPublish [("id", v)] /\
   routes.dispatch decode routes.PUT ["files"; id; "unpublish"]
   = routes.Handled routes.FilesController_putUnpublish [("id", v)]) /\
  (decode id = None ->
   routes.dispatch decode routes.GET ["files"; id] = routes.BadRequest /\
   routes.dispatch decode routes.GET ["files"; id; "data"] = routes.BadRequest /\
   routes.dispatch decode routes.PUT ["files"; id; "publish"] = routes.BadRequest /\
   routes.dispatch decode routes.PUT ["files"; id; "unpublish"]
   = routes.BadRequest) /\
  routes.dispatch decode routes.GET ["files"]
  = routes.Handled routes.FilesController_getIndex [] /\
  routes.dispatch decode routes.POST ["files"]
  = routes.Handled routes.FilesController_postUpload [].
Proof.
  intros Hid. destruct id as [|a id]; [congruence|].
  split; [|split; [|split; reflexivity]].
  - intros v Hv. repeat split; vm_compute; rewrite Hv; reflexivity.
  - intros Hv. repeat split; vm_compute; rewrite Hv; reflexivity.
Qed.

Lemma dispatch_files_witness :
  routes.dispatch decodePlain routes.GET ["files"; Sample.photoId; "data"]
  = routes.Handled routes.FilesController_getFile [("id", Sample.photoId)].
Proof.
  apply (proj1 (dispatch_files decodePlain Sample.photoId ltac:(discriminate))
           Sample.photoId).
  vm_compute. reflexivity.
Defined.

(** ** The upload that succeeds *)

(** X21.  An upload that is saved: for a user that passes the checks, with
    parameters that pass validation and the check of the parent id, when
    [saveFile], called with the user id, the parameters and the folder
    path, returns a file, the answer is 201 with that file, the files
    collection and the disk are what [saveFile] left, and the file queue
    gains the thumbnail job of the file when the type is image and nothing
    otherwise. *)
Theorem postUpload_created E request w fileParams newFile fs d :
  mayUpload E request w = true ->
  fileUtils.validate (body request) (files w) = inr fileParams ->
  parentIdAccepted E fileParams = true ->
  saveFile E (requester request w) fileParams (FilesController.FOLDER_PATH E)
           (files w, disk w) = (Saved newFile, (fs, d)) ->
  let r := FilesController.postUpload E request w in
  fst r = Sent {| status := 201; content_type := None;
                  payload := FileObj newFile |} /\
  files (snd r) = fs /\ disk (snd r) = d /\
  fileQueue (snd r) =
  fileQueue w ++ (if bool_decide (fp_type fileParams = "image")
                  then [thumbnailJob newFile] else []).
Proof.
  intros Hmay Hv Hparent Hsave r. subst r.
  rewrite postUpload_run by assumption. rewrite Hv, Hparent. simpl.
  unfold FilesController.saveFile_call. rewrite Hsave.
  destruct (bool_decide (fp_type fileParams = "image")); simpl;
    rewrite ?app_nil_r; auto.
Qed.

Lemma postUpload_created_witness :
  fst (FilesController.postUpload Sample.env
         (Sample.upload (Some "tok-alice") (Some "x.txt") (Some "file")
                        (Some (Parent Sample.docsId)) (Some "aGVsbG8="))
         Sample.world)
  = Sent {| status := 201; content_type := None;
            payload := FileObj {| f_id := "000000000000000000000003";
                                  f_userId := Sample.alice; f_name := "x.txt";
                                  f_type := "file"; f_isPublic := false;
                                  f_parentId := Parent Sample.docsId |} |} /\
  fileQueue (snd (FilesController.postUpload Sample.env
         (Sample.upload (Some "tok-alice") (Some "x.txt") (Some "file")
                        (Some (Parent Sample.docsId)) (Some "aGVsbG8="))
         Sample.world)) = [].
Proof.
  pose proof (postUpload_created Sample.env
    (Sample.upload (Some "tok-alice") (Some "x.txt") (Some "file")
                   (Some (Parent Sample.docsId)) (Some "aGVsbG8="))
    Sample.world
    {| fp_name := "x.txt"; fp_type := "file";
       fp_parentId := Parent Sample.docsId; fp_isPublic := false;
       fp_data := Some "aGVsbG8=" |}
    {| f_id := "000000000000000000000003"; f_userId := Sample.alice;
       f_name := "x.txt"; f_type := "file"; f_isPublic := false;
       f_parentId := Parent Sample.docsId |}
    (fst (snd (Sample.save (Some Sample.alice)
       {| fp_name := "x.txt"; fp_type := "file";
          fp_parentId := Parent Sample.docsId; fp_isPublic := false;
          fp_data := Some "aGVsbG8=" |} "/tmp/files_manager"
       (files Sample.world, disk Sample.world))))
    (snd (snd (Sample.save (Some Sample.alice)
       {| fp_name := "x.txt"; fp_type := "file";
          fp_parentId := Parent Sample.docsId; fp_isPublic := false;
          fp_data := Some "aGVsbG8=" |} "/tmp/files_manager"
       (files Sample.world, disk Sample.world))))) as H.
  destruct H as (H1 & _ & _ & H2); try (vm_compute; reflexivity).
  split; [exact H1|exact H2].
Defined.
